(** * vscode-xp: the localization editor and the object-id helper

  A shallow embedding of
  - [client/src/views/localization/localizationEditorViewProvider.ts]
    (class [LocalizationEditorViewProvider]) and
  - [client/src/helpers/KbHelper.ts] (class [KbHelper]),
  followed by the properties of the localization build / save workflow.

  JavaScript strings are sequences of UTF-16 code units; they are modelled
  as lists of [N].  The provider is a mutable object talking to external
  collaborators (dialogs, the content tree, the test runner, the file
  system): the embedding threads a [World] through every call, records the
  calls to collaborators in a trace of [Event]s, and takes the answers of
  the collaborators from a record of functions. *)

From Stdlib Require Import ZArith NArith List String Ascii Bool Lia.
From stdpp Require Import gmap.
Import ListNotations.

Local Open Scope N_scope.

(** ** JavaScript strings *)

Module Js.

Definition jsstring := list N.

(** An ASCII literal as a JavaScript string. *)
Definition lit (s : string) : jsstring :=
  List.map N_of_ascii (list_ascii_of_string s).

(** [a === b] on strings. *)
Fixpoint streq (a b : jsstring) : bool :=
  match a, b with
  | [], [] => true
  | x :: a', y :: b' => N.eqb x y && streq a' b'
  | _, _ => false
  end.

(** ECMAScript [WhiteSpace] and [LineTerminator] code points, the ones
    [String.prototype.trim] strips. *)
Definition isWhiteSpace (c : N) : bool :=
  (9 <=? c) && (c <=? 13)
  || (c =? 32) || (c =? 160) || (c =? 5760)
  || (8192 <=? c) && (c <=? 8202)
  || (c =? 8232) || (c =? 8233) || (c =? 8239) || (c =? 8287)
  || (c =? 12288) || (c =? 65279).

Fixpoint trimStart (s : jsstring) : jsstring :=
  match s with
  | [] => []
  | c :: rest => if isWhiteSpace c then trimStart rest else s
  end.

Definition trimEnd (s : jsstring) : jsstring := rev (trimStart (rev s)).

(** [s.trim()] *)
Definition trim (s : jsstring) : jsstring := trimEnd (trimStart s).

(** [s.substring(0, n)] for a non-negative integer [n]. *)
Definition substring0 (n : nat) (s : jsstring) : jsstring := firstn n s.

(** Truthiness of a value of type [string | undefined]: [if (s)]. *)
Definition truthy (s : option jsstring) : bool :=
  match s with
  | Some (_ :: _) => true
  | _ => false
  end.

(** [arr.map((x, index) => f(x, index))] *)
Fixpoint mapi_from {A B} (f : A -> nat -> B) (start : nat) (l : list A) : list B :=
  match l with
  | [] => []
  | x :: rest => f x start :: mapi_from f (S start) rest
  end.

Definition mapi {A B} (f : A -> nat -> B) (l : list A) : list B :=
  mapi_from f 0 l.

(** Decimal digits of a natural number, as [Number.prototype.toString]
    prints a non-negative integer below 2^53. *)
Fixpoint digits_fuel (fuel : nat) (n : N) (acc : jsstring) : jsstring :=
  match fuel with
  | O => acc
  | S fuel' =>
      let acc' := (48 + n mod 10) :: acc in
      if n / 10 =? 0 then acc' else digits_fuel fuel' (n / 10) acc'
  end.

Definition toString (n : N) : jsstring :=
  digits_fuel (S (N.to_nat (N.log2 n))) n [].

Definition isDigit (c : N) : bool := (48 <=? c) && (c <=? 57).

(** The number a string of decimal digits denotes. *)
Definition decimalValue (s : jsstring) : N :=
  fold_left (fun acc c => 10 * acc + (c - 48)) s 0.

End Js.
Import Js.

(** ** client/src/helpers/KbHelper.ts *)

Module KbHelper.

(** [Math.abs(crc32.str(ruleName)).toString()]: [crc32.str] of the npm
    package [crc-32] returns a signed 32-bit integer. *)
Definition absToString (crc : Z) : jsstring := toString (Z.abs_N crc).

(** Lines 11-13: [text.replace(/(\r\n)/gm, "\n")].  The text is read from
    the left; each carriage return (13) that is directly followed by a line
    feed (10) is dropped together with it and one line feed is written. *)
Fixpoint convertWindowsEOFToLinux (text : jsstring) : jsstring :=
  match text with
  | [] => []
  | c :: rest =>
      match rest with
      | d :: rest' =>
          if (c =? 13) && (d =? 10)
          then 10 :: convertWindowsEOFToLinux rest'
          else c :: convertWindowsEOFToLinux rest
      | [] => [c]
      end
  end.

(** Lines 15-17. *)
Definition getContentSubDirectories : list jsstring :=
  [lit "correlation_rules"; lit "tabular_lists"; lit "aggregation_rules";
   lit "enrichment_rules"; lit "normalization_formulas"].

Section WithCrc32.

Variable crc32_str : jsstring -> Z.

Definition generateRuleObjectId (ruleName contentPrefix : jsstring) : jsstring :=
  let objectId := absToString (crc32_str ruleName) in
  let objectId := substring0 9 objectId in
  contentPrefix ++ lit "-CR-" ++ objectId.

Definition generatePackageObjectId (ruleName contentPrefix : jsstring) : jsstring :=
  let objectId := absToString (crc32_str ruleName) in
  let objectId := substring0 9 objectId in
  contentPrefix ++ lit "-PKG-" ++ objectId.

End WithCrc32.

(** The CRC-32 of the package [crc-32] ([crc32.str]): the string is read as
    UTF-8 (surrogate pairs combined), the checksum is the reflected
    CRC-32 with polynomial [0xEDB88320], and the result is a signed 32-bit
    integer.  Used to run the id generators on concrete names. *)
Fixpoint crc_bits (k : nat) (c : Z) : Z :=
  match k with
  | O => c
  | S k' =>
      crc_bits k'
        (if Z.testbit c 0
         then Z.lxor (Z.shiftr c 1) 3988292384
         else Z.shiftr c 1)
  end.

Definition crc_byte (C : Z) (b : Z) : Z :=
  crc_bits 8 (Z.lxor C (Z.land b 255)).

Fixpoint crc_units (fuel : nat) (s : list Z) (C : Z) : Z :=
  match fuel with
  | O => C
  | S fuel' =>
      match s with
      | [] => C
      | c :: rest =>
          if (c <? 128)%Z then crc_units fuel' rest (crc_byte C c)
          else if (c <? 2048)%Z then
            let C := crc_byte C (Z.lor 192 (Z.land (Z.shiftr c 6) 31)) in
            let C := crc_byte C (Z.lor 128 (Z.land c 63)) in
            crc_units fuel' rest C
          else if (55296 <=? c)%Z && (c <? 57344)%Z then
            let c' := (Z.land c 1023 + 64)%Z in
            let d := match rest with d :: _ => Z.land d 1023 | [] => 0%Z end in
            let C := crc_byte C (Z.lor 240 (Z.land (Z.shiftr c' 8) 7)) in
            let C := crc_byte C (Z.lor 128 (Z.land (Z.shiftr c' 2) 63)) in
            let C := crc_byte C
                       (Z.lor (Z.lor 128 (Z.land (Z.shiftr d 6) 15))
                              (Z.shiftl (Z.land c' 3) 4)) in
            let C := crc_byte C (Z.lor 128 (Z.land d 63)) in
            crc_units fuel' (tl rest) C
          else
            let C := crc_byte C (Z.lor 224 (Z.land (Z.shiftr c 12) 15)) in
            let C := crc_byte C (Z.lor 128 (Z.land (Z.shiftr c 6) 63)) in
            let C := crc_byte C (Z.lor 128 (Z.land c 63)) in
            crc_units fuel' rest C
      end
  end.

Definition toInt32 (x : Z) : Z :=
  let y := Z.land x 4294967295 in
  if (y <? 2147483648)%Z then y else (y - 4294967296)%Z.

Definition crc32_ref (s : jsstring) : Z :=
  let units := List.map Z.of_N s in
  toInt32 (Z.lxor (crc_units (List.length units) units 4294967295) 4294967295).

End KbHelper.

(** ** The data model used by the localization editor *)

Module Content.

(** User-visible texts.  The provider passes Russian literals and
    configuration messages to its collaborators; each one is named after
    the place it is used (the line of [localizationEditorViewProvider.ts]
    is given). *)
Inductive Message : Type :=
| MsgShowEditorFailed                   (* line 100 *)
| MsgOnlyCorrelationsSupported          (* line 202 *)
| MsgNoLocalizationFired                (* line 216 *)
| MsgDefaultLocalizationFound           (* line 221 *)
| MsgLocalizationsNotVerified           (* line 222, status tooltip *)
| MsgTestsAndLocalizationsVerified      (* line 224, status tooltip *)
| MsgUnexpectedBuildError               (* line 233 *)
| MsgTmpFilesCleanupError               (* line 244 *)
| MsgSaveFailed                         (* line 256 *)
| MsgCriterionDuplicated (criterion : jsstring)   (* line 281 *)
| MsgLocalizationsSaved (ruleName : jsstring)     (* line 306 *)
| MsgPreviousResultsFound               (* line 323 *)
| MsgProgressDependencies               (* line 335 *)
| MsgProgressCorrelationEvents          (* line 340 *)
| MsgTestsFailed                        (* line 346 *)
| MsgProgressGeneration                 (* line 350 *)
| MsgOfCollaborator (code : N).         (* a text made by a collaborator *)

(** What can be thrown: [XpException], [OperationCanceledException]
    ([error instanceof OperationCanceledException] holds for it alone), the
    [TypeError] of a member access on [undefined], and any other error of
    a collaborator (I/O, parsing). *)
Inductive Exception : Type :=
| XpException (message : Message)
| OperationCanceledException
| TypeError
| OtherError (code : N).

Definition instanceofOperationCanceledException (e : Exception) : bool :=
  match e with
  | OperationCanceledException => true
  | _ => false
  end.

(** Modelled from the spec: the class [Localization] of
    [models/content/localization.ts] is not among the sources.  A
    localization entry is a criterion, the texts of the two locales and an
    optional id; [Localization.create] fills the criterion and the texts and
    leaves the id unset (a fresh id is given by the persistence layer);
    [setLocalizationId] sets the id.  A text is [None] where the caller
    passed [undefined]. *)
Record Localization : Type := mkLocalization {
  getCriteria : jsstring;
  getRuLocalizationText : option jsstring;
  getEnLocalizationText : option jsstring;
  getLocalizationId : option jsstring
}.

Definition Localization_create (criteria : jsstring) (ruLoc enLoc : option jsstring)
  : Localization :=
  mkLocalization criteria ruLoc enLoc None.

Definition setLocalizationId (id : jsstring) (loc : Localization) : Localization :=
  mkLocalization (getCriteria loc) (getRuLocalizationText loc)
                 (getEnLocalizationText loc) (Some id).

Record LocalizationExample : Type := mkLocalizationExample {
  ruText : jsstring;
  enText : jsstring
}.

Inductive ContentItemStatus : Type :=
| Default
| Unverified
| Verified.

(** Modelled from the spec: the class [RuleBaseItem] of
    [models/content/ruleBaseItem.ts] is not among the sources.  Of a rule
    the provider reads and writes the name, the two descriptions, the
    localization entries, the localization examples, the icon and the status
    (with its tooltip); each getter reads what the matching setter wrote. *)
Record RuleBaseItem : Type := mkRule {
  getName : jsstring;
  getRuDescription : jsstring;
  getEnDescription : jsstring;
  getLocalizations : list Localization;
  getLocalizationExamples : list LocalizationExample;
  iconPath : option jsstring;
  getStatus : ContentItemStatus;
  getStatusTooltip : option Message
}.

Definition setRuDescription (d : jsstring) (r : RuleBaseItem) : RuleBaseItem :=
  mkRule (getName r) d (getEnDescription r) (getLocalizations r)
         (getLocalizationExamples r) (iconPath r) (getStatus r) (getStatusTooltip r).

Definition setEnDescription (d : jsstring) (r : RuleBaseItem) : RuleBaseItem :=
  mkRule (getName r) (getRuDescription r) d (getLocalizations r)
         (getLocalizationExamples r) (iconPath r) (getStatus r) (getStatusTooltip r).

Definition setLocalizationTemplates (l : list Localization) (r : RuleBaseItem)
  : RuleBaseItem :=
  mkRule (getName r) (getRuDescription r) (getEnDescription r) l
         (getLocalizationExamples r) (iconPath r) (getStatus r) (getStatusTooltip r).

Definition setLocalizationExamples (l : list LocalizationExample) (r : RuleBaseItem)
  : RuleBaseItem :=
  mkRule (getName r) (getRuDescription r) (getEnDescription r) (getLocalizations r)
         l (iconPath r) (getStatus r) (getStatusTooltip r).

Definition setIconPath (i : option jsstring) (r : RuleBaseItem) : RuleBaseItem :=
  mkRule (getName r) (getRuDescription r) (getEnDescription r) (getLocalizations r)
         (getLocalizationExamples r) i (getStatus r) (getStatusTooltip r).

Definition setStatus (s : ContentItemStatus) (tooltip : option Message)
           (r : RuleBaseItem) : RuleBaseItem :=
  mkRule (getName r) (getRuDescription r) (getEnDescription r) (getLocalizations r)
         (getLocalizationExamples r) (iconPath r) s tooltip.

(** The [localizations] object of a webview message. *)
Record LocalizationsMessage : Type := mkLocalizationsMessage {
  RuDescription : jsstring;
  EnDescription : jsstring;
  Criteria : list jsstring;
  RuLocalizations : list jsstring;
  EnLocalizations : list jsstring;
  LocalizationIds : list jsstring
}.

(** [message.command] with its payload. *)
Inductive WebViewMessage : Type :=
| buildLocalizationsCommand (localizations : LocalizationsMessage)
| saveLocalizationsCommand (localizations : LocalizationsMessage)
| otherCommand.

(** A node of the file system, as [fs.existsSync] and [fs.promises.readdir]
    see it: a path that is absent from the map does not exist. *)
Inductive FsNode : Type :=
| Directory (items : list jsstring)
| RegularFile.

Abbreviation FileSystem := (gmap jsstring FsNode).

(** Calls to collaborators, in the order they are made. *)
Inductive Event : Type :=
| DialogShowInfo (m : Message) (buttons : list jsstring)
| DialogShowError (m : Message)
| ExceptionShow (e : Exception) (defaultMessage : Message)
| LogWarn (m : Message) (e : Exception)
| TreeRefresh (rule : option RuleBaseItem)
| ProgressReport (m : Message)
| GetIntegrationTestRunOptions (rule : option RuleBaseItem) (tmpPath : jsstring)
| TestRunnerRun (rule : option RuleBaseItem) (tmpPath : jsstring) (outcome : Exception + bool)
| BuildLocalizationExamples (rule : option RuleBaseItem) (tmpPath : jsstring)
| DeleteAllSubDirectoriesAndFiles (tmpPath : jsstring)
| SaveMetaInfoAndLocalizations (rule : RuleBaseItem)
| ViewDispose (panel : nat)
| CreateWebviewPanel
| UpdateView.

(** The provider's fields together with what it shares with the rest of
    the extension: the file system and the persisted rules (the newest
    first). *)
Record World : Type := mkWorld {
  _view : option nat;
  _rule : option RuleBaseItem;
  integrationTestTmpFilesPath : jsstring;
  files : FileSystem;
  persisted : list RuleBaseItem
}.

(** The answers of the collaborators.  None of them is among the sources;
    each is a function of what the provider hands over. *)
Record Collaborators : Type := mkCollaborators {
  (* StringHelper.textToOneLineAndTrim *)
  textToOneLineAndTrim : jsstring -> jsstring;
  (* TestHelper.isDefaultLocalization *)
  isDefaultLocalization : jsstring -> bool;
  (* TestHelper.isTestedLocalizationsRule *)
  isTestedLocalizationsRule : option RuleBaseItem -> bool;
  (* DialogHelper.showInfo: the button the user chose, if any *)
  showInfoAnswer : Message -> list jsstring -> option jsstring;
  (* ContentTreeProvider.refresh *)
  refreshThrows : option RuleBaseItem -> option Exception;
  (* RuleBaseItem.saveMetaInfoAndLocalizations *)
  saveThrows : RuleBaseItem -> option Exception;
  (* RunIntegrationTestDialog.getIntegrationTestRunOptions *)
  runOptionsThrow : option RuleBaseItem -> jsstring -> option Exception;
  (* IntegrationTestRunner.run: testsStatus or an exception, and the files it leaves *)
  testRunnerRun :
    option RuleBaseItem -> jsstring -> FileSystem -> (Exception + bool) * FileSystem;
  (* SiemjManager.buildLocalizationExamples *)
  buildLocalizationExamples :
    option RuleBaseItem -> jsstring -> FileSystem -> Exception + list LocalizationExample;
  (* FileSystemHelper.deleteAllSubDirectoriesAndFiles *)
  deleteAllSubDirectoriesAndFiles : jsstring -> FileSystem -> option Exception * FileSystem;
  (* Configuration.getRandTmpSubDirectoryPath *)
  getRandTmpSubDirectoryPath : jsstring;
  (* vscode.window.createWebviewPanel *)
  createWebviewPanel : Exception + nat
}.

End Content.
Import Content.

(** ** A state, trace and exception monad for the provider's methods *)

Inductive Result (A : Type) : Type :=
| Returned (a : A)
| Thrown (e : Exception).
Arguments Returned {A} a.
Arguments Thrown {A} e.

Definition M (A : Type) : Type := World -> Result A * World * list Event.

Definition ret {A} (a : A) : M A := fun w => (Returned a, w, []).

Definition throw {A} (e : Exception) : M A := fun w => (Thrown e, w, []).

Definition bind {A B} (m : M A) (k : A -> M B) : M B :=
  fun w =>
    match m w with
    | (Returned a, w1, t1) =>
        match k a w1 with
        | (r, w2, t2) => (r, w2, t1 ++ t2)
        end
    | (Thrown e, w1, t1) => (Thrown e, w1, t1)
    end.

(** [try { body } catch (error) { handler }] *)
Definition tryCatch {A} (body : M A) (handler : Exception -> M A) : M A :=
  fun w =>
    match body w with
    | (Returned a, w1, t1) => (Returned a, w1, t1)
    | (Thrown e, w1, t1) =>
        match handler e w1 with
        | (r, w2, t2) => (r, w2, t1 ++ t2)
        end
    end.

Declare Scope provider_scope.
Delimit Scope provider_scope with provider.
Notation "'let!' x ':=' m 'in' k" := (bind m (fun x => k))
  (at level 10, x name, m at level 100, k at level 200) : provider_scope.
Notation "'do!' m 'in' k" := (bind m (fun _ => k))
  (at level 10, m at level 100, k at level 200) : provider_scope.

Definition emit (e : Event) : M unit := fun w => (Returned tt, w, [e]).

Definition getWorld : M World := fun w => (Returned w, w, []).

(** An external call that records itself and may throw. *)
Definition call (e : Event) (outcome : option Exception) : M unit :=
  fun w =>
    match outcome with
    | None => (Returned tt, w, [e])
    | Some err => (Thrown err, w, [e])
    end.

(** [this._rule.<member>]: a [TypeError] when [_rule] is [undefined]. *)
Definition thisRule : M RuleBaseItem :=
  fun w =>
    match _rule w with
    | Some r => (Returned r, w, [])
    | None => (Thrown TypeError, w, [])
    end.

Definition setThisRule (r : option RuleBaseItem) : M unit :=
  fun w => (Returned tt,
            mkWorld (_view w) r (integrationTestTmpFilesPath w) (files w) (persisted w),
            []).

Definition setThisView (v : option nat) : M unit :=
  fun w => (Returned tt,
            mkWorld v (_rule w) (integrationTestTmpFilesPath w) (files w) (persisted w),
            []).

Definition setTmpFilesPath (p : jsstring) : M unit :=
  fun w => (Returned tt,
            mkWorld (_view w) (_rule w) p (files w) (persisted w),
            []).

Definition setFiles (f : FileSystem) : M unit :=
  fun w => (Returned tt,
            mkWorld (_view w) (_rule w) (integrationTestTmpFilesPath w) f (persisted w),
            []).

(** What a run of a method yields. *)
Definition resultOf {A} (x : Result A * World * list Event) : Result A := fst (fst x).
Definition worldOf {A} (x : Result A * World * list Event) : World := snd (fst x).
Definition traceOf {A} (x : Result A * World * list Event) : list Event := snd x.

Definition addPersisted (r : RuleBaseItem) : M unit :=
  fun w => (Returned tt,
            mkWorld (_view w) (_rule w) (integrationTestTmpFilesPath w) (files w)
                    (r :: persisted w),
            []).

(** A mutation of the object [this._rule] refers to. *)
Definition updateThisRule (f : RuleBaseItem -> RuleBaseItem) : M unit :=
  (let! r := thisRule in setThisRule (Some (f r)))%provider.

(** ** Helpers that are not among the sources *)

Module JsHelper.

(** Modelled from the spec: [JsHelper.findDuplicates] of
    [helpers/jsHelper.ts] is not among the sources.  It yields "the first
    duplicate normalized criterion encountered in input order": the array is
    read from the left and the first element that already occurred before it
    is returned; [null] ([None]) when no element repeats. *)
Fixpoint findDuplicatesFrom (seen arr : list jsstring) : option jsstring :=
  match arr with
  | [] => None
  | x :: rest =>
      if existsb (streq x) seen then Some x
      else findDuplicatesFrom (x :: seen) rest
  end.

Definition findDuplicates (arr : list jsstring) : option jsstring :=
  findDuplicatesFrom [] arr.

End JsHelper.

Module ExceptionHelper.

(** Modelled from the spec: [ExceptionHelper.show] of
    [helpers/exceptionHelper.ts] is not among the sources.  The error
    dialogs it opens: none for a cancellation ("surfaced silently (no error
    dialog)"), the exception's own message for an [XpException], the
    caller's default message for any other error. *)
Definition errorDialogsOf (error : Exception) (defaultMessage : Message) : list Message :=
  match error with
  | OperationCanceledException => []
  | XpException m => [m]
  | TypeError | OtherError _ => [defaultMessage]
  end.

End ExceptionHelper.

(** The error dialogs a trace opens, through [DialogHelper.showError] or
    through [ExceptionHelper.show]. *)
Definition errorDialogs (t : list Event) : list Message :=
  flat_map
    (fun e =>
       match e with
       | DialogShowError m => [m]
       | ExceptionShow err m => ExceptionHelper.errorDialogsOf err m
       | _ => []
       end) t.

(** Whether a trace holds a call of a given kind. *)
Definition isBuildLocalizationExamples (e : Event) : bool :=
  match e with BuildLocalizationExamples _ _ => true | _ => false end.

Definition isDeleteAll (e : Event) : bool :=
  match e with DeleteAllSubDirectoriesAndFiles _ => true | _ => false end.

Definition isReusePrompt (e : Event) : bool :=
  match e with DialogShowInfo MsgPreviousResultsFound _ => true | _ => false end.

Definition isTestRunnerRun (e : Event) : bool :=
  match e with TestRunnerRun _ _ _ => true | _ => false end.

(** ** client/src/views/localization/localizationEditorViewProvider.ts *)

Module LocalizationEditorViewProvider.

Local Open Scope provider_scope.

(** "Использовать" *)
Definition USE_OLD_TESTS_RESULT : jsstring :=
  [1048; 1089; 1087; 1086; 1083; 1100; 1079; 1086; 1074; 1072; 1090; 1100].

(** "Повторить" *)
Definition RESTART_TESTS : jsstring :=
  [1055; 1086; 1074; 1090; 1086; 1088; 1080; 1090; 1100].

Section Provider.

Variable env : Collaborators.

Definition DialogHelper_showInfo (m : Message) (buttons : list jsstring)
  : M (option jsstring) :=
  do! emit (DialogShowInfo m buttons) in
  ret (showInfoAnswer env m buttons).

Definition DialogHelper_showError (m : Message) : M unit :=
  emit (DialogShowError m).

Definition ExceptionHelper_show (error : Exception) (defaultMessage : Message) : M unit :=
  emit (ExceptionShow error defaultMessage).

Definition ContentTreeProvider_refresh : M unit :=
  let! w := getWorld in
  call (TreeRefresh (_rule w)) (refreshThrows env (_rule w)).

(** [updateView] (lines 132-194) renders the template into the panel.  It
    is an [async] method that none of its callers awaits: whatever it throws
    rejects its own promise and never reaches the caller. *)
Definition updateView : M unit := emit UpdateView.

(** The three [XpException]s of [updateView] (lines 139, 144 and 149). *)
Inductive ViewError : Type :=
| LocalizationIdNotSet
| CriteriaNotSet (locId : jsstring)
| NoValueFor (locId : jsstring).

(** A row of ["Localizations"] in the template object (lines 155-160). *)
Record PlainLocalization : Type := mkPlainLocalization {
  plainCriteria : jsstring;
  plainLocalizationId : jsstring;
  plainRuLocalization : jsstring;
  plainEnLocalization : jsstring
}.

(** Lines 137-160: the callback of [localizations.map]. *)
Definition plainLocalization (loc : Localization) : ViewError + PlainLocalization :=
  let locId := getLocalizationId loc in
  match locId with
  | Some (c :: id) =>
      let criteria := getCriteria loc in
      match criteria with
      | [] => inl (CriteriaNotSet (c :: id))
      | _ :: _ =>
          if negb (truthy (getRuLocalizationText loc))
             && negb (truthy (getEnLocalizationText loc))
          then inl (NoValueFor (c :: id))
          else
            let ruLocalizationText :=
              match getRuLocalizationText loc with Some t => t | None => [] end in
            let enLocalizationText :=
              match getEnLocalizationText loc with Some t => t | None => [] end in
            inr (mkPlainLocalization criteria (c :: id) ruLocalizationText enLocalizationText)
      end
  | _ => inl LocalizationIdNotSet
  end.

(** Lines 135-161: [localizations.map(...)], which stops at the first
    entry whose callback throws. *)
Fixpoint plainLocalizations (localizations : list Localization)
  : ViewError + list PlainLocalization :=
  match localizations with
  | [] => inr []
  | loc :: rest =>
      match plainLocalization loc with
      | inl error => inl error
      | inr row =>
          match plainLocalizations rest with
          | inl error => inl error
          | inr rows => inr (row :: rows)
          end
      end
  end.

(** Lines 56-102. *)
Definition showLocalizationEditor (rule : option RuleBaseItem) (keepTmpFiles : bool)
  : M unit :=
  let! w := getWorld in
  do! match _view w with
      | Some panel => do! emit (ViewDispose panel) in setThisView None
      | None => ret tt
      end in
  do! setThisRule rule in
  do! (if negb keepTmpFiles
       then setTmpFilesPath (getRandTmpSubDirectoryPath env)
       else ret tt) in
  tryCatch
    (do! match rule with
         | Some _ => ret tt          (* rule.getName() *)
         | None => throw TypeError
         end in
     do! emit CreateWebviewPanel in
     match createWebviewPanel env with
     | inl error => throw error
     | inr panel => do! setThisView (Some panel) in updateView
     end)
    (fun error => ExceptionHelper_show error MsgShowEditorFailed).

(** Lines 109-127.  [newRule] is mutated in place: the rule the caller
    holds afterwards is returned next to the boolean. *)
Definition updateRule (newRule : RuleBaseItem) : M (bool * RuleBaseItem) :=
  let! w := getWorld in
  match _view w, _rule w with
  | Some _, Some rule =>
      if streq (getName rule) (getName newRule) then
        let prevIcon := iconPath rule in
        let newRule := setIconPath prevIcon newRule in
        let localizationExamples := getLocalizationExamples rule in
        let newRule := setLocalizationExamples localizationExamples newRule in
        do! setThisRule (Some newRule) in
        let! w' := getWorld in
        do! match _view w' with
            | Some _ => updateView
            | None => ret tt
            end in
        ret (true, newRule)
      else ret (false, newRule)
  | _, _ => ret (false, newRule)
  end.

(** [this._rule.saveMetaInfoAndLocalizations()] *)
Definition saveMetaInfoAndLocalizations : M unit :=
  let! rule := thisRule in
  do! call (SaveMetaInfoAndLocalizations rule) (saveThrows env rule) in
  addPersisted rule.

(** Lines 286-297: one entry per criterion; the other arrays are read at
    the criterion's index ([undefined] past their end). *)
Definition buildEntries (criteria ruLocalizations enLocalizations localizationIds
                         : list jsstring) : list Localization :=
  mapi
    (fun cr index =>
       let ruLoc := nth_error ruLocalizations index in
       let enLoc := nth_error enLocalizations index in
       let loc := Localization_create cr ruLoc enLoc in
       let locId := nth_error localizationIds index in
       match locId with
       | Some id => if truthy locId then setLocalizationId id loc else loc
       | None => loc
       end)
    criteria.

(** Lines 262-308. *)
Definition saveLocalization (localization : LocalizationsMessage) (informUser : bool)
  : M unit :=
  let ruDescription := trim (RuDescription localization) in
  do! updateThisRule (setRuDescription ruDescription) in
  let enDescription := trim (EnDescription localization) in
  do! updateThisRule (setEnDescription enDescription) in
  let criteria := List.map trim (Criteria localization) in
  let ruLocalizations := List.map (textToOneLineAndTrim env) (RuLocalizations localization) in
  let enLocalizations := List.map (textToOneLineAndTrim env) (EnLocalizations localization) in
  let localizationIds := List.map trim (LocalizationIds localization) in
  let firstDuplicate := JsHelper.findDuplicates criteria in
  match firstDuplicate with
  | Some duplicate => DialogHelper_showError (MsgCriterionDuplicated duplicate)
  | None =>
      let localizations :=
        buildEntries criteria ruLocalizations enLocalizations localizationIds in
      do! (if negb (Nat.eqb (List.length localizations) 0)
           then updateThisRule (setLocalizationTemplates localizations)
           else ret tt) in
      do! saveMetaInfoAndLocalizations in
      if informUser then
        let! rule := thisRule in
        do! DialogHelper_showInfo (MsgLocalizationsSaved (getName rule)) [] in
        ret tt
      else ret tt
  end.

Definition existsSync (path : jsstring) : M bool :=
  let! w := getWorld in
  ret (match files w !! path with Some _ => true | None => false end).

(** [fs.promises.readdir]: [ENOENT] (2) for a missing path, [ENOTDIR] (20)
    for a file. *)
Definition readdir (path : jsstring) : M (list jsstring) :=
  let! w := getWorld in
  match files w !! path with
  | Some (Directory items) => ret items
  | Some RegularFile => throw (OtherError 20)
  | None => throw (OtherError 2)
  end.

(** Lines 316-332: the prompt about the results of a previous run. *)
Definition askAboutPreviousResults : M (option jsstring) :=
  let! w := getWorld in
  let! found := existsSync (integrationTestTmpFilesPath w) in
  if found then
    let! subDirItems := readdir (integrationTestTmpFilesPath w) in
    if Nat.ltb 0 (List.length subDirItems) then
      let! result := DialogHelper_showInfo MsgPreviousResultsFound
                       [USE_OLD_TESTS_RESULT; RESTART_TESTS] in
      if negb (truthy result) then throw OperationCanceledException
      else ret result
    else ret None
  else ret None.

(** Lines 335-347: the run of the integration tests. *)
Definition runIntegrationTests : M unit :=
  let! w := getWorld in
  let path := integrationTestTmpFilesPath w in
  do! emit (ProgressReport MsgProgressDependencies) in
  do! call (GetIntegrationTestRunOptions (_rule w) path)
           (runOptionsThrow env (_rule w) path) in
  do! emit (ProgressReport MsgProgressCorrelationEvents) in
  let (outcome, files') := testRunnerRun env (_rule w) path (files w) in
  do! emit (TestRunnerRun (_rule w) path outcome) in
  do! setFiles files' in
  match outcome with
  | inl error => throw error
  | inr testsStatus =>
      if negb testsStatus then throw (XpException MsgTestsFailed)
      else ret tt
  end.

(** Lines 350-354. *)
Definition generateExamples : M (list LocalizationExample) :=
  let! w := getWorld in
  let path := integrationTestTmpFilesPath w in
  do! emit (ProgressReport MsgProgressGeneration) in
  do! emit (BuildLocalizationExamples (_rule w) path) in
  match buildLocalizationExamples env (_rule w) path (files w) with
  | inl error => throw error
  | inr locExamples => ret locExamples
  end.

(** Lines 310-356. *)
Definition getLocalizationExamples : M (list LocalizationExample) :=
  let! result := askAboutPreviousResults in
  do! (if negb (truthy result)
          || match result with
             | Some chosen => streq chosen RESTART_TESTS
             | None => false
             end
       then runIntegrationTests
       else ret tt) in
  generateExamples.

(** Lines 214-230: what the build does with the examples. *)
Definition checkExamples (locExamples : list LocalizationExample) : M (option jsstring) :=
  if Nat.eqb (List.length locExamples) 0 then
    DialogHelper_showInfo MsgNoLocalizationFired []
  else
    let verifiedLocalization :=
      existsb (fun le => isDefaultLocalization env (ruText le)) locExamples in
    do! (if verifiedLocalization then
           do! DialogHelper_showError MsgDefaultLocalizationFound in
           updateThisRule (setStatus Unverified (Some MsgLocalizationsNotVerified))
         else
           updateThisRule (setStatus Verified (Some MsgTestsAndLocalizationsVerified))) in
    do! ContentTreeProvider_refresh in
    do! updateThisRule (setLocalizationExamples locExamples) in
    let! w := getWorld in
    do! showLocalizationEditor (_rule w) true in
    ret None.

(** Lines 200-230: the body of the [try] of ['buildLocalizations']. *)
Definition buildLocalizationsBody (localizations : LocalizationsMessage)
  : M (option jsstring) :=
  let! w := getWorld in
  if negb (isTestedLocalizationsRule env (_rule w)) then
    DialogHelper_showInfo MsgOnlyCorrelationsSupported []
  else
    do! updateThisRule (setStatus Default None) in
    do! ContentTreeProvider_refresh in
    do! saveLocalization localizations false in
    let! locExamples := getLocalizationExamples in
    checkExamples locExamples.

(** Lines 232-246: the [catch] of ['buildLocalizations']. *)
Definition buildLocalizationsCatch (error : Exception) : M (option jsstring) :=
  do! ExceptionHelper_show error MsgUnexpectedBuildError in
  if instanceofOperationCanceledException error then ret None
  else
    let! w := getWorld in
    let path := integrationTestTmpFilesPath w in
    do! tryCatch
          (do! emit (DeleteAllSubDirectoriesAndFiles path) in
           let (failure, files') := deleteAllSubDirectoriesAndFiles env path (files w) in
           do! setFiles files' in
           match failure with
           | Some error' => throw error'
           | None => ret tt
           end)
          (fun error' => emit (LogWarn MsgTmpFilesCleanupError error')) in
    ret None.

(** Lines 196-260. *)
Definition receiveMessageFromWebView (message : WebViewMessage) : M (option jsstring) :=
  match message with
  | buildLocalizationsCommand localizations =>
      tryCatch (buildLocalizationsBody localizations) buildLocalizationsCatch
  | saveLocalizationsCommand localizations =>
      tryCatch
        (do! saveLocalization localizations true in ret None)
        (fun error => do! ExceptionHelper_show error MsgSaveFailed in ret None)
  | otherCommand => ret None
  end.

End Provider.

End LocalizationEditorViewProvider.

(** ** src/unnamed/part_000: the hover provider [XpHoverProvider] *)

Module XpHoverProvider.

(** Of the class [CompleteSignature] ([./signature/completeSignature], not
    among the sources) the provider reads these fields. *)
Record CompleteSignature : Type := mkSignature {
  name : jsstring;
  signature : jsstring;
  description : jsstring;
  params : list jsstring;
  examples : list jsstring
}.

(** [vscode.CompletionItem.label] is a string or a [CompletionItemLabel]
    object; [${label}] prints an object as "[object Object]". *)
Inductive Label : Type :=
| LabelString (s : jsstring)
| LabelObject (label : jsstring).

(** Of a [vscode.CompletionItem] the provider reads these fields. *)
Record CompletionItem : Type := mkCompletionItem {
  label : Label;
  detail : option jsstring;
  documentation : option jsstring
}.

(** An element of the [contents] of a [vscode.Hover]. *)
Inductive HoverContent : Type :=
| CodeBlock (language value : jsstring)
| PlainText (value : jsstring)
| MarkdownString (value : jsstring)
| Documentation (value : option jsstring).

(** What [provideHover] returns: [null], a [vscode.Hover], or the object
    [{ contents: null }]. *)
Inductive HoverResult : Type :=
| ReturnsNull
| Hover (contents : list HoverContent)
| NullContents.

(** Lines 36-37: [instance.params[instance.params.length - 1] += "\n\n"].
    With no parameter the index is -1: the assignment makes a property
    ["-1"] and the elements of the array stay as they are. *)
Fixpoint spaceAfterLastParam (params : list jsstring) : list jsstring :=
  match params with
  | [] => []
  | [p] => [p ++ [10; 10]]
  | p :: rest => p :: spaceAfterLastParam rest
  end.

(** Lines 30-40: the signatures [init] keeps. *)
Definition prepareSignatures (signaturesPlain : list CompleteSignature)
  : list CompleteSignature :=
  List.map
    (fun instance =>
       mkSignature (name instance) (signature instance) (description instance)
                   (spaceAfterLastParam (params instance)) (examples instance))
    signaturesPlain.

(** Lines 112-122. *)
Definition getFuncHover (sign : CompleteSignature) : HoverResult :=
  Hover ([CodeBlock (lit "xp") (signature sign); PlainText (description sign)]
         ++ List.map PlainText (params sign)
         ++ List.map (CodeBlock (lit "xp")) (examples sign)).

(** [${sign.label}] and [${sign.detail}] in a template literal. *)
Definition labelText (l : Label) : jsstring :=
  match l with
  | LabelString s => s
  | LabelObject _ => lit "[object Object]"
  end.

Definition detailText (d : option jsstring) : jsstring :=
  match d with
  | Some s => s
  | None => lit "undefined"
  end.

(** Lines 124-133. *)
Definition getTaxonomyField (sign : CompletionItem) : HoverResult :=
  Hover [MarkdownString (lit "**" ++ labelText (label sign) ++ lit "**" ++ [10; 10]
                         ++ detailText (detail sign));
         Documentation (documentation sign)].

(** [t.label === selectedToken] *)
Definition labelIs (t : CompletionItem) (token : jsstring) : bool :=
  match label t with
  | LabelString s => streq s token
  | LabelObject _ => false
  end.

(** [selectedToken.startsWith('$')] (the dollar sign is 36). *)
Definition startsWithDollar (token : jsstring) : bool :=
  match token with
  | c :: _ => c =? 36
  | [] => false
  end.

(** Lines 88-96: the callback of [_taxonomySignatures.find]. *)
Definition matchesTaxonomy (selectedToken : jsstring) (t : CompletionItem) : bool :=
  labelIs t selectedToken
  || (startsWithDollar selectedToken && labelIs t (List.tl selectedToken)).

(** Lines 72-110.  [isEmptyOrWhitespace] is the flag of the line under the
    cursor and [selectedToken] the token [ParserHelper] found there. *)
Definition provideHover (_signatures : list CompleteSignature)
           (_taxonomySignatures : list CompletionItem)
           (isEmptyOrWhitespace : bool) (selectedToken : jsstring) : HoverResult :=
  if isEmptyOrWhitespace then ReturnsNull
  else
    let foundFuncSignature :=
      List.find (fun s => streq (name s) selectedToken) _signatures in
    let foundTaxonomyField :=
      List.find (matchesTaxonomy selectedToken) _taxonomySignatures in
    match foundFuncSignature with
    | Some sign => getFuncHover sign
    | None =>
        match foundTaxonomyField with
        | Some field => getTaxonomyField field
        | None => NullContents
        end
    end.

End XpHoverProvider.

(** ** Concrete collaborators, rules and messages

    Used to run the provider on explicit inputs. *)

Module Scenario.

(** A one-line normalisation: line breaks become spaces, then the text is
    trimmed. *)
Definition oneLine (s : jsstring) : jsstring :=
  trim (List.map (fun c => if (c =? 10) || (c =? 13) then 32 else c) s).

(** Collaborators that never fail on their own: the user answers the
    prompt with [answer], the test run ends with [outcome] and leaves one
    file in the directory, the examples are [examples], the cleanup empties
    the directory and then reports [cleanup]. *)
Definition env (answer : option jsstring) (outcome : Exception + bool)
           (examples : Exception + list LocalizationExample)
           (cleanup : option Exception) : Collaborators :=
  mkCollaborators
    oneLine
    (fun text => streq text (lit "default"))
    (fun rule => match rule with Some _ => true | None => false end)
    (fun _ _ => answer)
    (fun _ => None)
    (fun _ => None)
    (fun _ _ => None)
    (fun _ path fs => (outcome, <[path := Directory [lit "events.json"]]> fs))
    (fun _ _ _ => examples)
    (fun path fs => (cleanup, <[path := Directory []]> fs))
    (lit "/tmp/xp/fresh")
    (inr 7%nat).

Definition quiet : Collaborators := env None (inr true) (inr []) None.

Definition oldEntry : Localization :=
  mkLocalization (lit "correlation_name = x") (Some (lit "ru")) (Some (lit "en"))
                 (Some (lit "id-1")).

Definition rule : RuleBaseItem :=
  mkRule (lit "Rule_1") (lit "old ru") (lit "old en") [oldEntry] [] None Verified None.

Definition tmpPath : jsstring := lit "/tmp/xp/1".

(** A provider with an open view, showing [rule]; nothing on disk. *)
Definition world : World := mkWorld (Some 1%nat) (Some rule) tmpPath ∅ [].

(** The same provider after an earlier run left a file behind. *)
Definition worldWithArtifacts : World :=
  mkWorld (Some 1%nat) (Some rule) tmpPath
          (<[tmpPath := Directory [lit "events.json"]]> ∅) [].

(** Criteria ["a", "a "]: equal after trimming. *)
Definition duplicated : LocalizationsMessage :=
  mkLocalizationsMessage (lit " new ru ") (lit "new en")
    [lit "a"; lit "a "] [lit "r1"; lit "r2"] [lit "e1"; lit "e2"] [lit ""; lit ""].

(** Criteria ["a", "b", "b", "a"]: two values repeat. *)
Definition twoRepeats : LocalizationsMessage :=
  mkLocalizationsMessage (lit "ru") (lit "en")
    [lit "a"; lit "b"; lit "b"; lit "a"]
    [lit "r1"; lit "r2"; lit "r3"; lit "r4"] [lit "e1"; lit "e2"; lit "e3"; lit "e4"]
    [lit ""; lit ""; lit ""; lit ""].

(** Two distinct criteria, the second with an id. *)
Definition distinct : LocalizationsMessage :=
  mkLocalizationsMessage (lit "ru") (lit "en")
    [lit " a"; lit "b "] [lit "r1"; lit "r2"] [lit "e1"; lit "e2"] [lit " "; lit " id-2 "].

(** No criteria at all. *)
Definition empty : LocalizationsMessage :=
  mkLocalizationsMessage (lit "ru") (lit "en") [] [] [] [].

End Scenario.

(** ** Vocabulary of the statements *)

(** The provider's world with another current rule. *)
Definition withRule (w : World) (r : RuleBaseItem) : World :=
  mkWorld (_view w) (Some r) (integrationTestTmpFilesPath w) (files w) (persisted w).

(** The rule once the two submitted descriptions are stored in it. *)
Definition withDescriptions (localization : LocalizationsMessage) (r : RuleBaseItem)
  : RuleBaseItem :=
  setEnDescription (trim (EnDescription localization))
    (setRuDescription (trim (RuDescription localization)) r).

(** The entries [saveLocalization] builds from a message. *)
Definition submittedEntries (env : Collaborators) (localization : LocalizationsMessage)
  : list Localization :=
  LocalizationEditorViewProvider.buildEntries
    (List.map trim (Criteria localization))
    (List.map (textToOneLineAndTrim env) (RuLocalizations localization))
    (List.map (textToOneLineAndTrim env) (EnLocalizations localization))
    (List.map trim (LocalizationIds localization)).

(** The entry expected at index [i], in the words of the specification:
    the trimmed criterion, the one-line texts at [i], and the trimmed id at
    [i] when it is not empty. *)
Definition entryAt (env : Collaborators) (localization : LocalizationsMessage)
           (i : nat) (criterion : jsstring) : Localization :=
  mkLocalization
    (trim criterion)
    (option_map (textToOneLineAndTrim env) (nth_error (RuLocalizations localization) i))
    (option_map (textToOneLineAndTrim env) (nth_error (EnLocalizations localization) i))
    (match nth_error (LocalizationIds localization) i with
     | Some id => match trim id with
                  | [] => None
                  | _ :: _ => Some (trim id)
                  end
     | None => None
     end).

(** Lines 205-210 of the build: the status is reset, the tree refreshed
    and the message saved. *)
Definition resetAndSave (env : Collaborators) (localizations : LocalizationsMessage)
  : M unit :=
  (do! updateThisRule (setStatus Default None) in
   do! LocalizationEditorViewProvider.ContentTreeProvider_refresh env in
   LocalizationEditorViewProvider.saveLocalization env localizations false)%provider.

(** Lines 205-212 of the build: everything up to the examples. *)
Definition obtainExamples (env : Collaborators) (localizations : LocalizationsMessage)
  : M (list LocalizationExample) :=
  (do! resetAndSave env localizations in
   LocalizationEditorViewProvider.getLocalizationExamples env)%provider.

(** The calls of the test pipeline. *)
Definition isPipelineEvent (e : Event) : bool :=
  isTestRunnerRun e || isBuildLocalizationExamples e.

(** The calls each stage of the build can make. *)
Definition savingEvent (e : Event) : bool :=
  match e with
  | TreeRefresh _ | DialogShowError _ | SaveMetaInfoAndLocalizations _ => true
  | _ => false
  end.

Definition examplesEvent (e : Event) : bool :=
  match e with
  | DialogShowInfo _ _ | ProgressReport _ | GetIntegrationTestRunOptions _ _
  | TestRunnerRun _ _ _ | BuildLocalizationExamples _ _ => true
  | _ => false
  end.

Definition showingEvent (e : Event) : bool :=
  match e with
  | DialogShowInfo _ _ | DialogShowError _ | TreeRefresh _ | ViewDispose _
  | CreateWebviewPanel | UpdateView | ExceptionShow _ MsgShowEditorFailed => true
  | _ => false
  end.

Definition bodyEvent (e : Event) : bool :=
  savingEvent e || examplesEvent e || showingEvent e.

(** The status the build gives a rule for a non-empty list of examples. *)
Definition statusFor (env : Collaborators) (locExamples : list LocalizationExample)
  : ContentItemStatus :=
  if existsb (fun le => isDefaultLocalization env (ruText le)) locExamples
  then Unverified else Verified.

(** A Linux text written with Windows line ends: every line feed gets a
    carriage return in front. *)
Definition toWindowsEOF (text : jsstring) : jsstring :=
  flat_map (fun c => if c =? 10 then [13; 10] else [c]) text.

(** The text without its carriage returns. *)
Definition withoutCR (text : jsstring) : jsstring :=
  List.filter (fun c => negb (c =? 13)) text.

(** Every carriage return of the text is directly followed by a line feed. *)
Fixpoint crOnlyBeforeLF (text : jsstring) : bool :=
  match text with
  | [] => true
  | c :: rest =>
      (negb (c =? 13) || match rest with d :: _ => d =? 10 | [] => false end)
      && crOnlyBeforeLF rest
  end.

(** The number the digits of an object id denote, for a checksum of less
    than eleven digits: the absolute value, without its last digit when it
    has ten. *)
Definition truncatedChecksum (crc : Z) : N :=
  if Z.abs_N crc <? 1000000000 then Z.abs_N crc else Z.abs_N crc / 10.

(** A localization [updateView] accepts: an id, a criterion and at least
    one of the two texts, none of them empty. *)
Definition acceptedByView (loc : Localization) : bool :=
  truthy (getLocalizationId loc)
  && negb (Nat.eqb (List.length (getCriteria loc)) 0)
  && (truthy (getRuLocalizationText loc) || truthy (getEnLocalizationText loc)).

(** The row of an accepted localization. *)
Definition rowOf (loc : Localization) : LocalizationEditorViewProvider.PlainLocalization :=
  LocalizationEditorViewProvider.mkPlainLocalization
    (getCriteria loc)
    (match getLocalizationId loc with Some id => id | None => [] end)
    (match getRuLocalizationText loc with Some t => t | None => [] end)
    (match getEnLocalizationText loc with Some t => t | None => [] end).

(** [updateRule] called for each rule of a list, in order. *)
Fixpoint updateAll (rules : list RuleBaseItem) : M unit :=
  match rules with
  | [] => ret tt
  | r :: rest =>
      bind (LocalizationEditorViewProvider.updateRule r) (fun _ => updateAll rest)
  end.


Definition isSavedNotice (e : Event) : bool :=
  match e with DialogShowInfo (MsgLocalizationsSaved _) _ => true | _ => false end.

(** * Properties *)

(** ** Strings *)

Lemma streq_spec (a b : jsstring) : streq a b = true <-> a = b.
Proof.
  revert b; induction a as [|x a IH]; intros [|y b]; simpl; split; try easy.
  - intros H. apply andb_true_iff in H as [Hx Hab].
    apply N.eqb_eq in Hx. apply IH in Hab. congruence.
  - intros [= -> ->]. rewrite N.eqb_refl. simpl. now apply IH.
Qed.

Lemma streq_refl (a : jsstring) : streq a a = true.
Proof. now apply streq_spec. Qed.

Lemma existsb_streq (x : jsstring) (l : list jsstring) :
  existsb (streq x) l = true <-> In x l.
Proof.
  rewrite existsb_exists. split.
  - intros (y & Hy & E). apply streq_spec in E. now subst.
  - intros H. exists x. split; [assumption | apply streq_refl].
Qed.

Lemma mapi_from_length {A B} (f : A -> nat -> B) (l : list A) (start : nat) :
  List.length (mapi_from f start l) = List.length l.
Proof.
  revert start; induction l as [|x l IH]; intros start; simpl; [reflexivity|].
  now rewrite IH.
Qed.

Lemma mapi_from_nth_error {A B} (f : A -> nat -> B) (l : list A) (start i : nat) :
  nth_error (mapi_from f start l) i =
  option_map (fun x => f x (start + i)%nat) (nth_error l i).
Proof.
  revert start i; induction l as [|x l IH]; intros start [|i]; simpl; try reflexivity.
  - now rewrite Nat.add_0_r.
  - rewrite IH. now replace (S start + i)%nat with (start + S i)%nat by lia.
Qed.

(** ** Decimal digits *)

Lemma digits_fuel_acc (fuel : nat) (n : N) (acc : jsstring) :
  digits_fuel fuel n acc = digits_fuel fuel n [] ++ acc.
Proof.
  revert n acc; induction fuel as [|fuel IH]; intros n acc;
    cbn [digits_fuel]; [reflexivity|].
  destruct (n / 10 =? 0); [reflexivity|].
  rewrite (IH _ (_ :: acc)), (IH _ [_]). now rewrite <- app_assoc.
Qed.

Lemma digits_fuel_digits (fuel : nat) (n : N) (acc : jsstring) :
  forallb isDigit acc = true -> forallb isDigit (digits_fuel fuel n acc) = true.
Proof.
  revert n acc; induction fuel as [|fuel IH]; intros n acc Hacc;
    cbn [digits_fuel]; [assumption|].
  assert (Hd : forallb isDigit ((48 + n mod 10) :: acc) = true).
  { pose proof (N.mod_upper_bound n 10 ltac:(lia)) as Hlt.
    cbn [forallb]. rewrite Hacc, andb_true_r. unfold isDigit.
    revert Hlt. generalize (n mod 10). intros d Hlt.
    apply andb_true_iff; split; apply N.leb_le; lia. }
  destruct (n / 10 =? 0); [assumption | now apply IH].
Qed.

Lemma digits_fuel_nonempty (fuel : nat) (n : N) (acc : jsstring) :
  (1 <= List.length (digits_fuel (S fuel) n acc))%nat.
Proof.
  cbn [digits_fuel]. destruct (n / 10 =? 0); [cbn [List.length]; lia|].
  rewrite digits_fuel_acc, length_app. cbn [List.length]. lia.
Qed.

Lemma decimalValue_snoc (s : jsstring) (c : N) :
  decimalValue (s ++ [c]) = 10 * decimalValue s + (c - 48).
Proof. unfold decimalValue. now rewrite fold_left_app. Qed.

Lemma digits_fuel_value (fuel : nat) (n : N) :
  n < 2 ^ N.of_nat fuel -> decimalValue (digits_fuel fuel n []) = n.
Proof.
  revert n; induction fuel as [|fuel IH]; intros n Hn.
  - cbn in Hn. cbn [digits_fuel]. unfold decimalValue. cbn [fold_left]. lia.
  - cbn [digits_fuel].
    pose proof (N.Div0.div_mod n 10) as Hdm.
    pose proof (N.mod_upper_bound n 10 ltac:(lia)) as Hlt.
    remember (n / 10) as q eqn:Eq. remember (n mod 10) as r eqn:Er.
    rewrite Nat2N.inj_succ, N.pow_succ_r' in Hn.
    remember (2 ^ N.of_nat fuel) as p eqn:Ep.
    destruct (N.eqb_spec q 0) as [Hq|Hq].
    + unfold decimalValue. cbn [fold_left]. lia.
    + rewrite digits_fuel_acc, decimalValue_snoc, IH; lia.
Qed.

Lemma toString_value (n : N) : decimalValue (toString n) = n.
Proof.
  unfold toString. apply digits_fuel_value.
  destruct n as [|p]; [reflexivity|].
  rewrite Nat2N.inj_succ, N2Nat.id.
  apply N.log2_spec. lia.
Qed.

Lemma toString_digits (n : N) : forallb isDigit (toString n) = true.
Proof. unfold toString. now apply digits_fuel_digits. Qed.

Lemma toString_nonempty (n : N) : (1 <= List.length (toString n))%nat.
Proof. unfold toString. apply digits_fuel_nonempty. Qed.

Lemma forallb_firstn {A} (p : A -> bool) (k : nat) (l : list A) :
  forallb p l = true -> forallb p (firstn k l) = true.
Proof.
  revert k; induction l as [|x l IH]; intros [|k] H; simpl in *; try reflexivity.
  apply andb_true_iff in H as [Hx Hl]. rewrite Hx. simpl. now apply IH.
Qed.

(** ** KbHelper *)

(** C10. [generateRuleObjectId] and [generatePackageObjectId] are functions
    of the checksum of the rule name and of the prefix: both ids are the
    prefix, the infix [-CR-] (resp. [-PKG-]) and the same digit string, which
    is the first nine characters at most of the decimal representation of
    the absolute value of the checksum; it consists of one to nine decimal
    digits; and two rule names with the same checksum get the same ids. *)
Theorem object_ids_share_digits
  (crc32_str : jsstring -> Z) (ruleName contentPrefix : jsstring) :
  exists digits : jsstring,
    digits = substring0 9 (toString (Z.abs_N (crc32_str ruleName))) /\
    decimalValue (toString (Z.abs_N (crc32_str ruleName))) = Z.abs_N (crc32_str ruleName) /\
    KbHelper.generateRuleObjectId crc32_str ruleName contentPrefix
      = contentPrefix ++ lit "-CR-" ++ digits /\
    KbHelper.generatePackageObjectId crc32_str ruleName contentPrefix
      = contentPrefix ++ lit "-PKG-" ++ digits /\
    forallb isDigit digits = true /\
    (1 <= List.length digits <= 9)%nat /\
    (forall otherName : jsstring,
        crc32_str otherName = crc32_str ruleName ->
        KbHelper.generateRuleObjectId crc32_str otherName contentPrefix
          = KbHelper.generateRuleObjectId crc32_str ruleName contentPrefix /\
        KbHelper.generatePackageObjectId crc32_str otherName contentPrefix
          = KbHelper.generatePackageObjectId crc32_str ruleName contentPrefix).
Proof.
  set (n := Z.abs_N (crc32_str ruleName)).
  exists (substring0 9 (toString n)).
  split; [reflexivity|].
  split; [apply toString_value|].
  split; [reflexivity|].
  split; [reflexivity|].
  split; [apply forallb_firstn, toString_digits|].
  split.
  - unfold substring0. rewrite length_firstn.
    pose proof (toString_nonempty n). lia.
  - intros otherName E.
    unfold KbHelper.generateRuleObjectId, KbHelper.generatePackageObjectId,
      KbHelper.absToString.
    now rewrite E.
Qed.

(** The generators on concrete names, with the CRC-32 of the package: an id
    of nine digits, and one whose checksum has ten digits and is cut. *)
Example generateRuleObjectId_check :
  KbHelper.crc32_ref (lit "123456789") = (-873187034)%Z /\
  KbHelper.generateRuleObjectId KbHelper.crc32_ref (lit "123456789") (lit "LOC")
    = lit "LOC-CR-873187034" /\
  KbHelper.crc32_ref (lit "b") = 1908338681%Z /\
  KbHelper.generatePackageObjectId KbHelper.crc32_ref (lit "b") (lit "LOC")
    = lit "LOC-PKG-190833868".
Proof. repeat split; vm_compute; reflexivity. Qed.

(** ** JsHelper.findDuplicates *)

Lemma findDuplicatesFrom_None (arr seen : list jsstring) :
  JsHelper.findDuplicatesFrom seen arr = None <->
  List.NoDup arr /\ (forall x, In x arr -> ~ In x seen).
Proof.
  revert seen; induction arr as [|x arr IH]; intros seen; simpl.
  - split; [intros _; split; [constructor | easy] | reflexivity].
  - destruct (existsb (streq x) seen) eqn:E.
    + apply existsb_streq in E. split; [discriminate|].
      intros [_ H]. exfalso. apply (H x); [now left | assumption].
    + assert (Hx : ~ In x seen).
      { intros Hin. apply existsb_streq in Hin. congruence. }
      rewrite IH. split.
      * intros [Hnd Hseen]. split.
        -- constructor; [|assumption]. intros Hin. apply (Hseen x Hin). now left.
        -- intros y [<-|Hy]; [assumption|]. intros Hin. apply (Hseen y Hy). now right.
      * intros [Hnd Hseen]. inversion Hnd as [|? ? Hnotin Hnd']; subst. split; [assumption|].
        intros y Hy [<-|Hin]; [contradiction|]. apply (Hseen y); [now right | assumption].
Qed.

Lemma findDuplicates_None (arr : list jsstring) :
  JsHelper.findDuplicates arr = None <-> List.NoDup arr.
Proof.
  unfold JsHelper.findDuplicates. rewrite findDuplicatesFrom_None.
  split; [now intros [H _] | intros H; split; [assumption | easy]].
Qed.

Lemma findDuplicates_Some (arr : list jsstring) :
  ~ List.NoDup arr -> exists d, JsHelper.findDuplicates arr = Some d.
Proof.
  intros H. destruct (JsHelper.findDuplicates arr) as [d|] eqn:E; [now exists d|].
  apply findDuplicates_None in E. contradiction.
Qed.

(** The value reported is the one at the first position that repeats an
    earlier element. *)
Lemma findDuplicatesFrom_first_repeat (arr seen : list jsstring) (j : nat) (v : jsstring) :
  nth_error arr j = Some v ->
  In v (seen ++ firstn j arr) ->
  List.NoDup (firstn j arr) ->
  (forall x, In x (firstn j arr) -> ~ In x seen) ->
  JsHelper.findDuplicatesFrom seen arr = Some v.
Proof.
  revert seen j; induction arr as [|x arr IH]; intros seen [|j] Hj Hin Hnd Hseen;
    simpl in Hj; try discriminate.
  - injection Hj as ->. simpl in Hin. rewrite app_nil_r in Hin.
    simpl. apply existsb_streq in Hin. now rewrite Hin.
  - simpl in Hin, Hnd, Hseen. simpl.
    destruct (existsb (streq x) seen) eqn:E.
    + apply existsb_streq in E. exfalso. apply (Hseen x); [now left | assumption].
    + inversion Hnd as [|? ? Hnotin Hnd']; subst.
      apply (IH (x :: seen) j Hj).
      * apply in_app_or in Hin as [Hin|[<-|Hin]].
        -- simpl. right. apply in_or_app. now left.
        -- now left.
        -- simpl. right. apply in_or_app. now right.
      * assumption.
      * intros y Hy [<-|Hys]; [contradiction|]. apply (Hseen y); [now right | assumption].
Qed.

Lemma repeated_not_NoDup {A} (l : list A) (i j : nat) (v : A) :
  (i < j)%nat -> nth_error l i = Some v -> nth_error l j = Some v -> ~ List.NoDup l.
Proof.
  intros Hij Hi Hj Hnd.
  pose proof (proj1 (NoDup_nth_error l) Hnd i j) as H.
  assert (i < List.length l)%nat by (apply nth_error_Some; congruence).
  specialize (H ltac:(assumption) ltac:(congruence)). lia.
Qed.

(** ** saveLocalization *)

Import LocalizationEditorViewProvider.

(** The whole of [saveLocalization] on a provider that has a rule. *)
Lemma saveLocalization_run (env : Collaborators) (localization : LocalizationsMessage)
      (informUser : bool) (w : World) (rule : RuleBaseItem) :
  _rule w = Some rule ->
  saveLocalization env localization informUser w =
  let rule1 := withDescriptions localization rule in
  match JsHelper.findDuplicates (List.map trim (Criteria localization)) with
  | Some duplicate =>
      (Returned tt, withRule w rule1, [DialogShowError (MsgCriterionDuplicated duplicate)])
  | None =>
      let entries := submittedEntries env localization in
      let rule2 := if negb (Nat.eqb (List.length entries) 0)
                   then setLocalizationTemplates entries rule1 else rule1 in
      match saveThrows env rule2 with
      | Some error => (Thrown error, withRule w rule2, [SaveMetaInfoAndLocalizations rule2])
      | None =>
          (Returned tt,
           mkWorld (_view w) (Some rule2) (integrationTestTmpFilesPath w) (files w)
                   (rule2 :: persisted w),
           SaveMetaInfoAndLocalizations rule2 ::
             if informUser
             then [DialogShowInfo (MsgLocalizationsSaved (getName rule2)) []]
             else [])
      end
  end.
Proof.
  intros Hrule.
  unfold saveLocalization, submittedEntries, withDescriptions, withRule.
  unfold bind at 1. unfold updateThisRule at 1, bind at 1, thisRule at 1.
  rewrite Hrule. cbn [setThisRule].
  unfold bind at 1. unfold updateThisRule at 1, bind at 1, thisRule at 1.
  cbn [_rule _view integrationTestTmpFilesPath files persisted setThisRule app].
  destruct (JsHelper.findDuplicates (List.map trim (Criteria localization))) as [d|];
    [reflexivity|].
  set (entries := buildEntries _ _ _ _).
  destruct (negb (Nat.eqb (List.length entries) 0)); cbn -[entries];
    unfold saveMetaInfoAndLocalizations, bind, thisRule, call, addPersisted,
      updateThisRule, setThisRule, DialogHelper_showInfo, emit, ret; cbn -[entries];
    (match goal with |- context [saveThrows env ?r] => destruct (saveThrows env r) end);
    cbn -[entries]; try reflexivity; destruct informUser; reflexivity.
Qed.

Lemma submittedEntries_length (env : Collaborators) (localization : LocalizationsMessage) :
  List.length (submittedEntries env localization) = List.length (Criteria localization).
Proof.
  unfold submittedEntries, buildEntries, mapi.
  now rewrite mapi_from_length, length_map.
Qed.

Lemma submittedEntries_nth (env : Collaborators) (localization : LocalizationsMessage)
      (i : nat) (criterion : jsstring) :
  nth_error (Criteria localization) i = Some criterion ->
  nth_error (submittedEntries env localization) i
    = Some (entryAt env localization i criterion).
Proof.
  intros Hi. unfold submittedEntries, buildEntries, mapi, entryAt.
  rewrite mapi_from_nth_error, !nth_error_map, Hi. cbn [option_map Nat.add].
  destruct (nth_error (LocalizationIds localization) i) as [id|]; cbn [option_map];
    [|reflexivity].
  unfold truthy. destruct (trim id); reflexivity.
Qed.

(** C1 (amended). When the trimmed criteria hold a duplicate,
    [saveLocalization] returns after the error dialog that names the
    duplicate: no entry is kept, nothing is persisted, and of the rule only
    the two descriptions differ from before, which hold the trimmed
    descriptions of the message; the localization entries, the examples,
    the name, the icon and the status are the ones from before the call. *)
Theorem save_with_duplicate_keeps_entries
  (env : Collaborators) (localization : LocalizationsMessage) (informUser : bool)
  (w : World) (rule : RuleBaseItem) :
  _rule w = Some rule ->
  ~ List.NoDup (List.map trim (Criteria localization)) ->
  exists (duplicate : jsstring) (rule' : RuleBaseItem),
    JsHelper.findDuplicates (List.map trim (Criteria localization)) = Some duplicate /\
    saveLocalization env localization informUser w
      = (Returned tt, withRule w rule',
         [DialogShowError (MsgCriterionDuplicated duplicate)]) /\
    persisted (withRule w rule') = persisted w /\
    files (withRule w rule') = files w /\
    getLocalizations rule' = getLocalizations rule /\
    Content.getLocalizationExamples rule' = Content.getLocalizationExamples rule /\
    getName rule' = getName rule /\
    iconPath rule' = iconPath rule /\
    getStatus rule' = getStatus rule /\
    getStatusTooltip rule' = getStatusTooltip rule /\
    getRuDescription rule' = trim (RuDescription localization) /\
    getEnDescription rule' = trim (EnDescription localization).
Proof.
  intros Hrule Hdup.
  destruct (findDuplicates_Some _ Hdup) as [d Hd].
  exists d, (withDescriptions localization rule).
  split; [assumption|].
  split.
  - rewrite (saveLocalization_run env localization informUser w rule Hrule).
    cbn zeta. now rewrite Hd.
  - repeat split.
Qed.

Lemma save_with_duplicate_keeps_entries_witness :
  exists (duplicate : jsstring) (rule' : RuleBaseItem),
    JsHelper.findDuplicates (List.map trim (Criteria Scenario.duplicated)) = Some duplicate /\
    saveLocalization Scenario.quiet Scenario.duplicated true Scenario.world
      = (Returned tt, withRule Scenario.world rule',
         [DialogShowError (MsgCriterionDuplicated duplicate)]) /\
    persisted (withRule Scenario.world rule') = persisted Scenario.world /\
    files (withRule Scenario.world rule') = files Scenario.world /\
    getLocalizations rule' = getLocalizations Scenario.rule /\
    Content.getLocalizationExamples rule' = Content.getLocalizationExamples Scenario.rule /\
    getName rule' = getName Scenario.rule /\
    iconPath rule' = iconPath Scenario.rule /\
    getStatus rule' = getStatus Scenario.rule /\
    getStatusTooltip rule' = getStatusTooltip Scenario.rule /\
    getRuDescription rule' = trim (RuDescription Scenario.duplicated) /\
    getEnDescription rule' = trim (EnDescription Scenario.duplicated).
Proof.
  apply (save_with_duplicate_keeps_entries
           Scenario.quiet Scenario.duplicated true Scenario.world Scenario.rule).
  - reflexivity.
  - apply (repeated_not_NoDup _ 0 1 (lit "a")); [lia | reflexivity | reflexivity].
Defined.

(** C1 as stated fails: with criteria ["a", "a "] the save stops at the
    duplicate, yet the rule's Russian description, "old ru" before the call,
    is "new ru" after it. *)
Lemma save_with_duplicate_overwrites_description :
  JsHelper.findDuplicates (List.map trim (Criteria Scenario.duplicated)) = Some (lit "a") /\
  option_map getRuDescription (_rule Scenario.world) = Some (lit "old ru") /\
  option_map getRuDescription
    (_rule (worldOf (saveLocalization Scenario.quiet Scenario.duplicated true Scenario.world)))
    = Some (lit "new ru") /\
  traceOf (saveLocalization Scenario.quiet Scenario.duplicated true Scenario.world)
    = [DialogShowError (MsgCriterionDuplicated (lit "a"))].
Proof. repeat split; vm_compute; reflexivity. Qed.

(** C3 (amended). When the trimmed criteria hold equal values at positions
    [i < j], the save stops at the error dialog of a duplicate and persists
    nothing; the duplicate it names is the trimmed value at position [j]
    whenever [j] is the first position that repeats an earlier one (no
    value repeats among the positions before [j]). *)
Theorem first_repeated_criterion_is_reported
  (env : Collaborators) (localization : LocalizationsMessage) (informUser : bool)
  (w : World) (rule : RuleBaseItem) (i j : nat) (v : jsstring) :
  _rule w = Some rule ->
  (i < j)%nat ->
  nth_error (List.map trim (Criteria localization)) i = Some v ->
  nth_error (List.map trim (Criteria localization)) j = Some v ->
  (exists duplicate : jsstring,
      JsHelper.findDuplicates (List.map trim (Criteria localization)) = Some duplicate /\
      resultOf (saveLocalization env localization informUser w) = Returned tt /\
      traceOf (saveLocalization env localization informUser w)
        = [DialogShowError (MsgCriterionDuplicated duplicate)] /\
      persisted (worldOf (saveLocalization env localization informUser w)) = persisted w) /\
  (List.NoDup (firstn j (List.map trim (Criteria localization))) ->
   JsHelper.findDuplicates (List.map trim (Criteria localization)) = Some v /\
   traceOf (saveLocalization env localization informUser w)
     = [DialogShowError (MsgCriterionDuplicated v)]).
Proof.
  intros Hrule Hij Hi Hj.
  pose proof (saveLocalization_run env localization informUser w rule Hrule) as Hrun.
  cbn zeta in Hrun.
  split.
  - destruct (findDuplicates_Some _ (repeated_not_NoDup _ i j v Hij Hi Hj)) as [d Hd].
    exists d. rewrite Hd in Hrun. rewrite Hrun. repeat split; assumption.
  - intros Hfirst.
    assert (Hv : JsHelper.findDuplicates (List.map trim (Criteria localization)) = Some v).
    { unfold JsHelper.findDuplicates.
      apply (findDuplicatesFrom_first_repeat _ [] j v Hj); [| assumption | easy].
      cbn [app]. apply (nth_error_In _ i).
      rewrite nth_error_firstn.
      destruct (Nat.ltb_spec i j) as [_|Hge]; [assumption | lia]. }
    rewrite Hv in Hrun. rewrite Hrun. split; [assumption | reflexivity].
Qed.

Lemma first_repeated_criterion_is_reported_witness :
  JsHelper.findDuplicates (List.map trim (Criteria Scenario.duplicated)) = Some (lit "a") /\
  traceOf (saveLocalization Scenario.quiet Scenario.duplicated false Scenario.world)
    = [DialogShowError (MsgCriterionDuplicated (lit "a"))].
Proof.
  apply (proj2 (first_repeated_criterion_is_reported
                  Scenario.quiet Scenario.duplicated false Scenario.world Scenario.rule
                  0 1 (lit "a") eq_refl ltac:(lia) eq_refl eq_refl)).
  vm_compute. constructor; [simpl; tauto | constructor].
Defined.

(** C3 as stated fails: in ["a", "b", "b", "a"] the positions 0 and 3 hold
    the same value "a", but the duplicate that is reported is "b", the value
    of the first position that repeats an earlier one. *)
Lemma later_repeat_is_not_reported :
  nth_error (List.map trim (Criteria Scenario.twoRepeats)) 0 = Some (lit "a") /\
  nth_error (List.map trim (Criteria Scenario.twoRepeats)) 3 = Some (lit "a") /\
  JsHelper.findDuplicates (List.map trim (Criteria Scenario.twoRepeats)) = Some (lit "b") /\
  streq (lit "b") (lit "a") = false /\
  traceOf (saveLocalization Scenario.quiet Scenario.twoRepeats false Scenario.world)
    = [DialogShowError (MsgCriterionDuplicated (lit "b"))].
Proof. repeat split; vm_compute; reflexivity. Qed.

(** No function of the criteria can report, for every pair of equal values
    at positions [i < j], the value at [j]: two different values may both
    repeat. *)
Remark no_function_reports_every_repeat :
  ~ exists f : list jsstring -> option jsstring,
      forall (l : list jsstring) (i j : nat) (v : jsstring),
        (i < j)%nat -> nth_error l i = Some v -> nth_error l j = Some v -> f l = Some v.
Proof.
  intros [f Hf].
  pose proof (Hf (Criteria Scenario.twoRepeats) 0%nat 3%nat (lit "a")
                ltac:(lia) eq_refl eq_refl) as Ha.
  pose proof (Hf (Criteria Scenario.twoRepeats) 1%nat 2%nat (lit "b")
                ltac:(lia) eq_refl eq_refl) as Hb.
  rewrite Ha in Hb. discriminate Hb.
Qed.

(** C7 (amended). After [saveLocalization] the rule's entries are the ones
    from before the call when the message has no criterion, and also when
    its trimmed criteria hold a duplicate; they are the entries built from
    the message, all of them and nothing else, when the message has at least
    one criterion and its trimmed criteria are pairwise distinct. *)
Theorem save_replaces_entries_of_valid_batch
  (env : Collaborators) (localization : LocalizationsMessage) (informUser : bool)
  (w : World) (rule : RuleBaseItem) :
  _rule w = Some rule ->
  exists rule' : RuleBaseItem,
    _rule (worldOf (saveLocalization env localization informUser w)) = Some rule' /\
    (Criteria localization = [] -> getLocalizations rule' = getLocalizations rule) /\
    (Criteria localization <> [] ->
     List.NoDup (List.map trim (Criteria localization)) ->
     getLocalizations rule' = submittedEntries env localization) /\
    (~ List.NoDup (List.map trim (Criteria localization)) ->
     getLocalizations rule' = getLocalizations rule).
Proof.
  intros Hrule.
  rewrite (saveLocalization_run env localization informUser w rule Hrule). cbn zeta.
  pose proof (submittedEntries_length env localization) as Hlen.
  destruct (JsHelper.findDuplicates (List.map trim (Criteria localization))) as [d|] eqn:Hd.
  - exists (withDescriptions localization rule). split; [reflexivity|].
    split; [reflexivity|]. split; [|reflexivity].
    intros _ Hnd. apply findDuplicates_None in Hnd. congruence.
  - apply findDuplicates_None in Hd.
    set (entries := submittedEntries env localization) in *.
    set (rule2 := if negb (Nat.eqb (List.length entries) 0) then _ else _).
    exists rule2.
    split; [destruct (saveThrows env rule2); reflexivity|].
    split; [|split; [|contradiction]].
    + intros Hnil. rewrite Hnil in Hlen. subst rule2. rewrite Hlen. reflexivity.
    + intros Hne _. subst rule2.
      destruct (Criteria localization) as [|c cs]; [contradiction|].
      rewrite Hlen. reflexivity.
Qed.

Lemma save_replaces_entries_of_valid_batch_witness :
  exists rule' : RuleBaseItem,
    _rule (worldOf (saveLocalization Scenario.quiet Scenario.distinct true Scenario.world))
      = Some rule' /\
    (Criteria Scenario.distinct = [] ->
     getLocalizations rule' = getLocalizations Scenario.rule) /\
    (Criteria Scenario.distinct <> [] ->
     List.NoDup (List.map trim (Criteria Scenario.distinct)) ->
     getLocalizations rule' = submittedEntries Scenario.quiet Scenario.distinct) /\
    (~ List.NoDup (List.map trim (Criteria Scenario.distinct)) ->
     getLocalizations rule' = getLocalizations Scenario.rule).
Proof.
  apply (save_replaces_entries_of_valid_batch
           Scenario.quiet Scenario.distinct true Scenario.world Scenario.rule).
  reflexivity.
Defined.

(** The two ends of C7 on explicit messages: an empty message keeps the old
    entry, a message with two distinct criteria leaves exactly its two
    entries. *)
Example save_empty_and_distinct :
  option_map getLocalizations
    (_rule (worldOf (saveLocalization Scenario.quiet Scenario.empty true Scenario.world)))
    = Some [Scenario.oldEntry] /\
  option_map getLocalizations
    (_rule (worldOf (saveLocalization Scenario.quiet Scenario.distinct true Scenario.world)))
    = Some [mkLocalization (lit "a") (Some (lit "r1")) (Some (lit "e1")) None;
            mkLocalization (lit "b") (Some (lit "r2")) (Some (lit "e2")) (Some (lit "id-2"))].
Proof. split; vm_compute; reflexivity. Qed.

(** C7 as stated fails: the message with criteria ["a", "a "] is not empty,
    and after the save the rule still holds its old entry, not entries of
    the message. *)
Lemma duplicated_batch_replaces_nothing :
  List.length (Criteria Scenario.duplicated) = 2%nat /\
  option_map getLocalizations (_rule Scenario.world) = Some [Scenario.oldEntry] /\
  option_map getLocalizations
    (_rule (worldOf (saveLocalization Scenario.quiet Scenario.duplicated true Scenario.world)))
    = Some [Scenario.oldEntry] /\
  persisted (worldOf (saveLocalization Scenario.quiet Scenario.duplicated true Scenario.world))
    = [].
Proof. repeat split; vm_compute; reflexivity. Qed.

(** C8. When the trimmed criteria are pairwise distinct, the duplicate
    check finds nothing, no error dialog is opened and the save goes on to
    persist the rule; the entries it builds are as many as the criteria
    and, for every index [i], the entry at [i] holds the trimmed criterion
    at [i], the one-line Russian and English texts at [i], and as its id the
    trimmed [ids[i]] exactly when that is not empty (no id otherwise); a
    non-empty batch becomes the rule's entries. *)
Theorem save_builds_one_entry_per_index
  (env : Collaborators) (localization : LocalizationsMessage) (informUser : bool)
  (w : World) (rule : RuleBaseItem) :
  _rule w = Some rule ->
  List.NoDup (List.map trim (Criteria localization)) ->
  JsHelper.findDuplicates (List.map trim (Criteria localization)) = None /\
  List.length (submittedEntries env localization) = List.length (Criteria localization) /\
  (forall (i : nat) (criterion : jsstring),
      nth_error (Criteria localization) i = Some criterion ->
      nth_error (submittedEntries env localization) i
        = Some (entryAt env localization i criterion)) /\
  (exists (saved : RuleBaseItem) (rest : list Event),
      traceOf (saveLocalization env localization informUser w)
        = SaveMetaInfoAndLocalizations saved :: rest /\
      errorDialogs (traceOf (saveLocalization env localization informUser w)) = [] /\
      _rule (worldOf (saveLocalization env localization informUser w)) = Some saved /\
      (Criteria localization <> [] ->
       getLocalizations saved = submittedEntries env localization)).
Proof.
  intros Hrule Hnd.
  apply findDuplicates_None in Hnd.
  split; [assumption|].
  split; [apply submittedEntries_length|].
  split; [intros i criterion; apply submittedEntries_nth|].
  rewrite (saveLocalization_run env localization informUser w rule Hrule). cbn zeta.
  rewrite Hnd.
  pose proof (submittedEntries_length env localization) as Hlen.
  set (entries := submittedEntries env localization) in *.
  set (rule2 := if negb (Nat.eqb (List.length entries) 0) then _ else _).
  assert (Hentries : Criteria localization <> [] -> getLocalizations rule2 = entries).
  { intros Hne. subst rule2.
    destruct (Criteria localization) as [|c cs]; [contradiction|].
    rewrite Hlen. reflexivity. }
  destruct (saveThrows env rule2) as [error|].
  - exists rule2, []. repeat split; assumption.
  - exists rule2, (if informUser
                   then [DialogShowInfo (MsgLocalizationsSaved (getName rule2)) []]
                   else []).
    repeat split; try assumption.
    destruct informUser; reflexivity.
Qed.

Lemma save_builds_one_entry_per_index_witness :
  JsHelper.findDuplicates (List.map trim (Criteria Scenario.distinct)) = None /\
  List.length (submittedEntries Scenario.quiet Scenario.distinct)
    = List.length (Criteria Scenario.distinct) /\
  (forall (i : nat) (criterion : jsstring),
      nth_error (Criteria Scenario.distinct) i = Some criterion ->
      nth_error (submittedEntries Scenario.quiet Scenario.distinct) i
        = Some (entryAt Scenario.quiet Scenario.distinct i criterion)) /\
  (exists (saved : RuleBaseItem) (rest : list Event),
      traceOf (saveLocalization Scenario.quiet Scenario.distinct true Scenario.world)
        = SaveMetaInfoAndLocalizations saved :: rest /\
      errorDialogs
        (traceOf (saveLocalization Scenario.quiet Scenario.distinct true Scenario.world)) = [] /\
      _rule (worldOf (saveLocalization Scenario.quiet Scenario.distinct true Scenario.world))
        = Some saved /\
      (Criteria Scenario.distinct <> [] ->
       getLocalizations saved = submittedEntries Scenario.quiet Scenario.distinct)).
Proof.
  apply (save_builds_one_entry_per_index
           Scenario.quiet Scenario.distinct true Scenario.world Scenario.rule).
  - reflexivity.
  - vm_compute. repeat constructor; simpl; intuition discriminate.
Defined.

(** The entries of a concrete message: the blank id is dropped, the other
    one is kept trimmed. *)
Example submittedEntries_distinct :
  submittedEntries Scenario.quiet Scenario.distinct
    = [mkLocalization (lit "a") (Some (lit "r1")) (Some (lit "e1")) None;
       mkLocalization (lit "b") (Some (lit "r2")) (Some (lit "e2")) (Some (lit "id-2"))] /\
  persisted (worldOf (saveLocalization Scenario.quiet Scenario.distinct true Scenario.world))
    = [mkRule (lit "Rule_1") (lit "ru") (lit "en")
         (submittedEntries Scenario.quiet Scenario.distinct) [] None Verified None].
Proof. split; vm_compute; reflexivity. Qed.

(** ** updateRule *)

(** C9. [updateRule] returns [true] exactly when a view is open, a rule is
    set and the new rule has its name.  Then the new rule, with the icon
    and the localization examples of the previous rule put on it, becomes
    the provider's rule (its other fields are its own) and the view is
    redrawn.  Otherwise the result is [false] and neither the provider nor
    the new rule changes. *)
Theorem updateRule_adopts_same_named_rule
  (newRule : RuleBaseItem) (w : World) :
  exists (updated : bool) (held : RuleBaseItem),
    resultOf (updateRule newRule w) = Returned (updated, held) /\
    (updated = true <->
     _view w <> None /\
     exists rule, _rule w = Some rule /\ getName rule = getName newRule) /\
    (updated = true ->
     exists rule,
       _rule w = Some rule /\
       held = setLocalizationExamples (Content.getLocalizationExamples rule)
                (setIconPath (iconPath rule) newRule) /\
       iconPath held = iconPath rule /\
       Content.getLocalizationExamples held = Content.getLocalizationExamples rule /\
       getName held = getName newRule /\
       getRuDescription held = getRuDescription newRule /\
       getEnDescription held = getEnDescription newRule /\
       getLocalizations held = getLocalizations newRule /\
       getStatus held = getStatus newRule /\
       worldOf (updateRule newRule w) = withRule w held /\
       traceOf (updateRule newRule w) = [UpdateView]) /\
    (updated = false ->
     held = newRule /\
     worldOf (updateRule newRule w) = w /\
     traceOf (updateRule newRule w) = []).
Proof.
  unfold updateRule, bind, getWorld.
  destruct (_view w) as [panel|] eqn:Hview.
  - destruct (_rule w) as [rule|] eqn:Hrule.
    + destruct (streq (getName rule) (getName newRule)) eqn:Hname.
      * apply streq_spec in Hname.
        eexists true, _. cbn. rewrite Hview. cbn.
        split; [reflexivity|].
        split; [split; [intros _; split; [discriminate | now exists rule] | reflexivity]|].
        split; [|discriminate].
        intros _. exists rule. repeat split.
        unfold withRule. now rewrite Hview.
      * exists false, newRule. cbn.
        split; [reflexivity|].
        split; [|split; [discriminate | intros _; now destruct w]].
        split; [discriminate|].
        intros [_ (rule' & [= <-] & Heq)].
        apply streq_spec in Heq. congruence.
    + exists false, newRule. cbn.
      split; [reflexivity|].
      split; [|split; [discriminate | intros _; now destruct w]].
      split; [discriminate | intros [_ (rule' & Habs & _)]; discriminate].
  - exists false, newRule. cbn.
    split; [reflexivity|].
    split; [|split; [discriminate | intros _; now destruct w]].
    split; [discriminate | intros [Habs _]; contradiction].
Qed.

(** [updateRule] on explicit rules: a rule of the same name is adopted with
    the old icon and examples, a rule of another name is refused. *)
Example updateRule_check :
  let shown := setLocalizationExamples [mkLocalizationExample (lit "ru") (lit "en")]
                 (setIconPath (Some (lit "ok.svg")) Scenario.rule) in
  let edited := setRuDescription (lit "edited") Scenario.rule in
  let other := mkRule (lit "Rule_2") [] [] [] [] None Default None in
  updateRule edited (withRule Scenario.world shown)
    = (Returned (true, setRuDescription (lit "edited") shown),
       withRule Scenario.world (setRuDescription (lit "edited") shown), [UpdateView]) /\
  updateRule other (withRule Scenario.world shown)
    = (Returned (false, other), withRule Scenario.world shown, []).
Proof. split; vm_compute; reflexivity. Qed.

(** ** getLocalizationExamples *)

Ltac run_step :=
  unfold bind, ret, throw, emit, call, getWorld, setFiles, existsSync, readdir,
    DialogHelper_showInfo, DialogHelper_showError, ExceptionHelper_show;
  cbn.

Lemma askAboutPreviousResults_run (env : Collaborators) (w : World) :
  askAboutPreviousResults env w =
  match files w !! integrationTestTmpFilesPath w with
  | None => (Returned None, w, [])
  | Some RegularFile => (Thrown (OtherError 20), w, [])
  | Some (Directory []) => (Returned None, w, [])
  | Some (Directory (_ :: _)) =>
      let answer := showInfoAnswer env MsgPreviousResultsFound
                      [USE_OLD_TESTS_RESULT; RESTART_TESTS] in
      (if truthy answer then Returned answer else Thrown OperationCanceledException,
       w,
       [DialogShowInfo MsgPreviousResultsFound [USE_OLD_TESTS_RESULT; RESTART_TESTS]])
  end.
Proof.
  unfold askAboutPreviousResults. run_step.
  destruct (files w !! integrationTestTmpFilesPath w) as [[[|item items]|]|] eqn:Hfs;
    run_step; rewrite ?Hfs; run_step; try reflexivity.
  destruct (truthy (showInfoAnswer env MsgPreviousResultsFound
                      [USE_OLD_TESTS_RESULT; RESTART_TESTS])); reflexivity.
Qed.

Lemma runIntegrationTests_run (env : Collaborators) (w : World) :
  runIntegrationTests env w =
  let path := integrationTestTmpFilesPath w in
  match runOptionsThrow env (_rule w) path with
  | Some error =>
      (Thrown error, w,
       [ProgressReport MsgProgressDependencies;
        GetIntegrationTestRunOptions (_rule w) path])
  | None =>
      (match fst (testRunnerRun env (_rule w) path (files w)) with
       | inl error => Thrown error
       | inr true => Returned tt
       | inr false => Thrown (XpException MsgTestsFailed)
       end,
       mkWorld (_view w) (_rule w) path
               (snd (testRunnerRun env (_rule w) path (files w))) (persisted w),
       [ProgressReport MsgProgressDependencies;
        GetIntegrationTestRunOptions (_rule w) path;
        ProgressReport MsgProgressCorrelationEvents;
        TestRunnerRun (_rule w) path (fst (testRunnerRun env (_rule w) path (files w)))])
  end.
Proof.
  unfold runIntegrationTests. run_step.
  destruct (runOptionsThrow env (_rule w) (integrationTestTmpFilesPath w)); [reflexivity|].
  destruct (testRunnerRun env (_rule w) (integrationTestTmpFilesPath w) (files w))
    as [[error|[|]] files']; cbn; reflexivity.
Qed.

Lemma generateExamples_run (env : Collaborators) (w : World) :
  generateExamples env w =
  (match buildLocalizationExamples env (_rule w) (integrationTestTmpFilesPath w) (files w) with
   | inl error => Thrown error
   | inr locExamples => Returned locExamples
   end,
   w,
   [ProgressReport MsgProgressGeneration;
    BuildLocalizationExamples (_rule w) (integrationTestTmpFilesPath w)]).
Proof.
  unfold generateExamples. run_step.
  destruct (buildLocalizationExamples env (_rule w) (integrationTestTmpFilesPath w) (files w));
    reflexivity.
Qed.

(** C6. With no directory at the path of the temporary files, or with an
    empty one, nothing is asked and the build goes straight to the test
    run; the prompt about earlier results is shown exactly when the path is
    a directory with at least one item; and when that prompt is closed
    without a choice ([undefined] or an empty string) the build ends with
    [OperationCanceledException], having neither run the tests nor
    generated examples. *)
Theorem reuse_prompt_only_for_existing_artifacts (env : Collaborators) (w : World) :
  (files w !! integrationTestTmpFilesPath w = None \/
   files w !! integrationTestTmpFilesPath w = Some (Directory []) ->
   askAboutPreviousResults env w = (Returned None, w, []) /\
   getLocalizationExamples env w
     = bind (runIntegrationTests env) (fun _ => generateExamples env) w) /\
  (existsb isReusePrompt (traceOf (getLocalizationExamples env w)) = true <->
   exists item items,
     files w !! integrationTestTmpFilesPath w = Some (Directory (item :: items))) /\
  (forall item items,
      files w !! integrationTestTmpFilesPath w = Some (Directory (item :: items)) ->
      truthy (showInfoAnswer env MsgPreviousResultsFound
                [USE_OLD_TESTS_RESULT; RESTART_TESTS]) = false ->
      getLocalizationExamples env w
        = (Thrown OperationCanceledException, w,
           [DialogShowInfo MsgPreviousResultsFound
              [USE_OLD_TESTS_RESULT; RESTART_TESTS]])).
Proof.
  pose proof (askAboutPreviousResults_run env w) as Hask.
  split; [|split].
  - intros Hnone.
    assert (Hret : askAboutPreviousResults env w = (Returned None, w, [])).
    { rewrite Hask. destruct Hnone as [-> | ->]; reflexivity. }
    split; [assumption|].
    unfold getLocalizationExamples. unfold bind at 1. rewrite Hret.
    cbn [truthy negb orb].
    match goal with
    | |- context [bind ?m ?k ?x] => destruct (bind m k x) as [[r1 w1] t1]
    end.
    reflexivity.
  - unfold getLocalizationExamples. unfold bind at 1. rewrite Hask.
    destruct (files w !! integrationTestTmpFilesPath w) as [[[|item items]|]|] eqn:Hfs.
    + (* an empty directory *)
      cbn [truthy negb orb]. unfold bind at 1. rewrite runIntegrationTests_run. cbn zeta.
      split; [|intros (item & items & [=])].
      destruct (runOptionsThrow env (_rule w) (integrationTestTmpFilesPath w));
        [discriminate|].
      unfold bind. rewrite generateExamples_run.
      destruct (fst (testRunnerRun env (_rule w) (integrationTestTmpFilesPath w) (files w)))
        as [error|[|]]; discriminate.
    + (* a directory with items *)
      split; [intros _; now exists item, items|]. intros _. cbn zeta.
      destruct (truthy (showInfoAnswer env MsgPreviousResultsFound
                          [USE_OLD_TESTS_RESULT; RESTART_TESTS])); [|reflexivity].
      match goal with
      | |- context [bind ?m ?k ?x] => destruct (bind m k x) as [[r1 w1] t1]
      end.
      reflexivity.
    + (* a file *)
      split; [discriminate | intros (item & items & [=])].
    + (* no such path *)
      cbn [truthy negb orb]. unfold bind at 1. rewrite runIntegrationTests_run. cbn zeta.
      split; [|intros (item & items & [=])].
      destruct (runOptionsThrow env (_rule w) (integrationTestTmpFilesPath w));
        [discriminate|].
      unfold bind. rewrite generateExamples_run.
      destruct (fst (testRunnerRun env (_rule w) (integrationTestTmpFilesPath w) (files w)))
        as [error|[|]]; discriminate.
  - intros item items Hfs Hanswer.
    unfold getLocalizationExamples. unfold bind at 1. rewrite Hask, Hfs. cbn zeta.
    now rewrite Hanswer.
Qed.

(** ** The build of the localization examples *)

Lemma bind_assoc {A B C} (m : M A) (k : A -> M B) (h : B -> M C) (w : World) :
  bind (bind m k) h w = bind m (fun a => bind (k a) h) w.
Proof.
  unfold bind.
  destruct (m w) as [[[a|e] w1] t1]; [|reflexivity].
  destruct (k a w1) as [[[b|e] w2] t2]; [|reflexivity].
  destruct (h b w2) as [[r w3] t3]. now rewrite app_assoc.
Qed.

Lemma existsb_weaken {A} (p q : A -> bool) (l : list A) :
  (forall x, p x = true -> q x = true) ->
  existsb q l = false -> existsb p l = false.
Proof.
  intros Hpq Hq. destruct (existsb p l) eqn:E; [|reflexivity].
  apply existsb_exists in E as (x & Hx & Hp).
  assert (existsb q l = true) by (apply existsb_exists; exists x; auto).
  congruence.
Qed.

Lemma forallb_excludes {A} (allowed p : A -> bool) (l : list A) :
  (forall x, allowed x = true -> p x = false) ->
  forallb allowed l = true -> existsb p l = false.
Proof.
  intros Hdisj Hall. destruct (existsb p l) eqn:E; [|reflexivity].
  apply existsb_exists in E as (x & Hx & Hp).
  rewrite forallb_forall in Hall. specialize (Hdisj x (Hall x Hx)). congruence.
Qed.

Lemma forallb_weaken {A} (p q : A -> bool) (l : list A) :
  (forall x, p x = true -> q x = true) ->
  forallb p l = true -> forallb q l = true.
Proof.
  intros Hpq Hp. rewrite forallb_forall in *. auto.
Qed.

Lemma not_in_of_existsb {A} (p : A -> bool) (l : list A) (x : A) :
  p x = true -> existsb p l = false -> ~ In x l.
Proof.
  intros Hp Hex Hin.
  assert (existsb p l = true) by (apply existsb_exists; eauto).
  congruence.
Qed.

Lemma resetAndSave_run (env : Collaborators) (l : LocalizationsMessage) (w : World) :
  resetAndSave env l w =
  match _rule w with
  | None => (Thrown TypeError, w, [])
  | Some rule =>
      let rule0 := setStatus Default None rule in
      match refreshThrows env (Some rule0) with
      | Some error => (Thrown error, withRule w rule0, [TreeRefresh (Some rule0)])
      | None =>
          (resultOf (saveLocalization env l false (withRule w rule0)),
           worldOf (saveLocalization env l false (withRule w rule0)),
           TreeRefresh (Some rule0)
             :: traceOf (saveLocalization env l false (withRule w rule0)))
      end
  end.
Proof.
  unfold resetAndSave, updateThisRule, ContentTreeProvider_refresh, thisRule, setThisRule,
    bind, getWorld, call.
  destruct (_rule w) as [rule|]; [|reflexivity].
  cbn -[saveLocalization]. fold (withRule w (setStatus Default None rule)).
  destruct (refreshThrows env (Some (setStatus Default None rule))); [reflexivity|].
  destruct (saveLocalization env l false (withRule w (setStatus Default None rule)))
    as [[r w1] t1].
  reflexivity.
Qed.

(** What [resetAndSave] leaves: calls of the saving stage only, and, when
    it returns, a rule whose status is [Default]. *)
Lemma resetAndSave_facts (env : Collaborators) (l : LocalizationsMessage) (w : World) :
  forallb savingEvent (traceOf (resetAndSave env l w)) = true /\
  (resultOf (resetAndSave env l w) = Returned tt ->
   exists rule1, _rule (worldOf (resetAndSave env l w)) = Some rule1 /\
                 getStatus rule1 = Default).
Proof.
  rewrite resetAndSave_run.
  destruct (_rule w) as [rule|]; [|split; [reflexivity | discriminate]].
  cbn zeta.
  destruct (refreshThrows env (Some (setStatus Default None rule)));
    [split; [reflexivity | discriminate]|].
  rewrite (saveLocalization_run env l false (withRule w (setStatus Default None rule))
             (setStatus Default None rule) eq_refl).
  cbn zeta.
  destruct (JsHelper.findDuplicates (List.map trim (Criteria l))).
  - split; [reflexivity|]. intros _. eexists. split; reflexivity.
  - match goal with
    | |- context [saveThrows env ?r] => destruct (saveThrows env r)
    end.
    + split; [reflexivity | discriminate].
    + split; [reflexivity|]. intros _. eexists. split; [reflexivity|].
      destruct (negb _); reflexivity.
Qed.

(** Case analysis over one call of [getLocalizationExamples]: the call is
    replaced by its outcome, one goal per path through the method. *)
Ltac examples_cases env w :=
  let x := fresh "outcome" in
  let E := fresh "Eoutcome" in
  remember (getLocalizationExamples env w) as x eqn:E;
  unfold getLocalizationExamples in E;
  unfold bind at 1 in E;
  rewrite (askAboutPreviousResults_run env w) in E;
  destruct (files w !! integrationTestTmpFilesPath w) as [[[|?item ?items]|]|];
  cbn zeta in E;
  try (destruct (showInfoAnswer env MsgPreviousResultsFound
                   [USE_OLD_TESTS_RESULT; RESTART_TESTS]) as [[|?c ?chosen]|];
       cbn [truthy negb orb] in E;
       try (match type of E with
            | context [streq ?a RESTART_TESTS] => destruct (streq a RESTART_TESTS)
            end));
  cbn [truthy negb orb] in E;
  unfold bind in E;
  rewrite ?runIntegrationTests_run in E; cbn zeta in E;
  try (destruct (runOptionsThrow env (_rule w) (integrationTestTmpFilesPath w)));
  try (destruct (fst (testRunnerRun env (_rule w) (integrationTestTmpFilesPath w) (files w)))
        as [?error|[|]]);
  cbn [ret] in E;
  rewrite ?generateExamples_run in E;
  cbn [_rule _view integrationTestTmpFilesPath files persisted] in E;
  try (match type of E with
       | context [buildLocalizationExamples env ?r ?p ?f] =>
           destruct (buildLocalizationExamples env r p f)
       end);
  cbn [ret app] in E;
  subst x;
  cbn [resultOf worldOf traceOf fst snd app
       _rule _view integrationTestTmpFilesPath files persisted].

(** The examples stage touches the files only. *)
Lemma getLocalizationExamples_keeps_provider (env : Collaborators) (w : World) :
  _rule (worldOf (getLocalizationExamples env w)) = _rule w /\
  _view (worldOf (getLocalizationExamples env w)) = _view w /\
  integrationTestTmpFilesPath (worldOf (getLocalizationExamples env w))
    = integrationTestTmpFilesPath w /\
  persisted (worldOf (getLocalizationExamples env w)) = persisted w.
Proof. examples_cases env w; repeat split. Qed.

Lemma getLocalizationExamples_events (env : Collaborators) (w : World) :
  forallb examplesEvent (traceOf (getLocalizationExamples env w)) = true.
Proof. examples_cases env w; reflexivity. Qed.

(** Within [getLocalizationExamples], a test run that ends with
    [testsStatus = false] is followed by the [XpException] about failed
    tests and by nothing else. *)
Lemma getLocalizationExamples_failed_tests
      (env : Collaborators) (w : World) (rule : option RuleBaseItem) (path : jsstring) :
  In (TestRunnerRun rule path (inr false)) (traceOf (getLocalizationExamples env w)) ->
  resultOf (getLocalizationExamples env w) = Thrown (XpException MsgTestsFailed) /\
  existsb isBuildLocalizationExamples (traceOf (getLocalizationExamples env w)) = false.
Proof.
  examples_cases env w; cbn [In]; intros Hin;
    repeat (destruct Hin as [Hin|Hin]; try discriminate Hin);
    try contradiction; split; reflexivity.
Qed.

Lemma checkExamples_empty (env : Collaborators) (w : World) :
  checkExamples env [] w
    = (Returned (showInfoAnswer env MsgNoLocalizationFired []), w,
       [DialogShowInfo MsgNoLocalizationFired []]).
Proof. reflexivity. Qed.

(** After [checkExamples] the rule carries the status of the examples, or
    its former status when there are no examples. *)
Lemma checkExamples_status (env : Collaborators) (locExamples : list LocalizationExample)
      (w : World) (rule : RuleBaseItem) :
  _rule w = Some rule ->
  exists rule',
    _rule (worldOf (checkExamples env locExamples w)) = Some rule' /\
    getStatus rule' = match locExamples with
                      | [] => getStatus rule
                      | _ :: _ => statusFor env locExamples
                      end.
Proof.
  intros Hrule. destruct locExamples as [|le rest].
  - rewrite checkExamples_empty. exists rule. split; [assumption | reflexivity].
  - unfold checkExamples, statusFor.
    cbn [List.length Nat.eqb].
    destruct (existsb (fun le0 => isDefaultLocalization env (ruText le0)) (le :: rest));
      unfold showLocalizationEditor, updateThisRule, ContentTreeProvider_refresh, tryCatch,
        updateView, thisRule, setThisRule, setThisView, setTmpFilesPath;
      run_step; rewrite Hrule; run_step;
      (destruct (refreshThrows env _); run_step; [eexists; split; reflexivity|]);
      destruct (_view w); run_step;
      destruct (createWebviewPanel env); run_step;
      eexists; split; reflexivity.
Qed.

Lemma checkExamples_events (env : Collaborators)
      (locExamples : list LocalizationExample) (w : World) :
  forallb showingEvent (traceOf (checkExamples env locExamples w)) = true.
Proof.
  destruct locExamples as [|le rest]; [reflexivity|].
  unfold checkExamples.
  cbn [List.length Nat.eqb].
  destruct (existsb (fun le0 => isDefaultLocalization env (ruText le0)) (le :: rest));
    unfold showLocalizationEditor, updateThisRule, ContentTreeProvider_refresh, tryCatch,
      updateView, thisRule, setThisRule, setThisView, setTmpFilesPath;
    run_step;
    (destruct (_rule w); run_step; [|reflexivity]);
    (destruct (refreshThrows env _); run_step; [reflexivity|]);
    destruct (_view w); run_step;
    destruct (createWebviewPanel env); run_step; reflexivity.
Qed.

Lemma buildLocalizationsCatch_run (env : Collaborators) (error : Exception) (w : World) :
  buildLocalizationsCatch env error w =
  if instanceofOperationCanceledException error then
    (Returned None, w, [ExceptionShow error MsgUnexpectedBuildError])
  else
    let path := integrationTestTmpFilesPath w in
    (Returned None,
     mkWorld (_view w) (_rule w) path
             (snd (deleteAllSubDirectoriesAndFiles env path (files w))) (persisted w),
     ExceptionShow error MsgUnexpectedBuildError
       :: DeleteAllSubDirectoriesAndFiles path
       :: match fst (deleteAllSubDirectoriesAndFiles env path (files w)) with
          | Some error' => [LogWarn MsgTmpFilesCleanupError error']
          | None => []
          end).
Proof.
  unfold buildLocalizationsCatch, tryCatch. run_step.
  destruct (instanceofOperationCanceledException error); [reflexivity|].
  destruct (deleteAllSubDirectoriesAndFiles env (integrationTestTmpFilesPath w) (files w))
    as [[error'|] files']; reflexivity.
Qed.

Lemma bind_ext {A B} (m : M A) (k k' : A -> M B) (w : World) :
  (forall a w', k a w' = k' a w') -> bind m k w = bind m k' w.
Proof.
  intros Hk. unfold bind. destruct (m w) as [[[a|e] w1] t1]; [|reflexivity].
  now rewrite Hk.
Qed.

Lemma bind_getWorld {A} (k : World -> M A) (w : World) :
  bind getWorld k w = k w w.
Proof.
  unfold bind, getWorld. destruct (k w w) as [[r w2] t2]. reflexivity.
Qed.

(** The body of the build is the examples stage followed by
    [checkExamples], unless the rule is of a kind that is not tested. *)
Lemma buildLocalizationsBody_run (env : Collaborators) (l : LocalizationsMessage) (w : World) :
  buildLocalizationsBody env l w =
  if isTestedLocalizationsRule env (_rule w)
  then bind (obtainExamples env l) (checkExamples env) w
  else (Returned (showInfoAnswer env MsgOnlyCorrelationsSupported []), w,
        [DialogShowInfo MsgOnlyCorrelationsSupported []]).
Proof.
  unfold buildLocalizationsBody. rewrite bind_getWorld.
  destruct (isTestedLocalizationsRule env (_rule w)); cbn [negb].
  - unfold obtainExamples, resetAndSave.
    rewrite !bind_assoc. apply bind_ext. intros [] w1. cbv beta.
    rewrite !bind_assoc. apply bind_ext. intros [] w2. cbv beta.
    rewrite ?bind_assoc. apply bind_ext. intros [] w3. reflexivity.
  - unfold DialogHelper_showInfo, bind, emit, ret. reflexivity.
Qed.

Lemma obtainExamples_events (env : Collaborators) (l : LocalizationsMessage) (w : World) :
  forallb bodyEvent (traceOf (obtainExamples env l w)) = true.
Proof.
  unfold obtainExamples, bind.
  pose proof (proj1 (resetAndSave_facts env l w)) as H1.
  destruct (resetAndSave env l w) as [[[[]|e] w1] t1]; cbn [traceOf snd] in *.
  - pose proof (getLocalizationExamples_events env w1) as H2.
    destruct (getLocalizationExamples env w1) as [[r2 w2] t2]; cbn [traceOf snd] in *.
    rewrite forallb_app. apply andb_true_iff. split.
    + revert H1. apply forallb_weaken. intros e He. unfold bodyEvent. now rewrite He.
    + revert H2. apply forallb_weaken. intros e He. unfold bodyEvent.
      rewrite He. now rewrite orb_true_r.
  - revert H1. apply forallb_weaken. intros e' He. unfold bodyEvent. now rewrite He.
Qed.

(** The body of the build calls neither the cleanup nor
    [ExceptionHelper.show] with the message of the build. *)
Lemma buildLocalizationsBody_events (env : Collaborators) (l : LocalizationsMessage)
      (w : World) :
  forallb bodyEvent (traceOf (buildLocalizationsBody env l w)) = true.
Proof.
  rewrite buildLocalizationsBody_run.
  destruct (isTestedLocalizationsRule env (_rule w)); [|reflexivity].
  unfold bind.
  pose proof (obtainExamples_events env l w) as H1.
  destruct (obtainExamples env l w) as [[[ex|e] w1] t1]; cbn [traceOf snd] in *;
    [|assumption].
  pose proof (checkExamples_events env ex w1) as H2.
  destruct (checkExamples env ex w1) as [[r2 w2] t2]; cbn [traceOf snd] in *.
  rewrite forallb_app, H1. cbn [andb].
  revert H2. apply forallb_weaken. intros e He. unfold bodyEvent.
  rewrite He. now rewrite !orb_true_r.
Qed.

(** The handler of ['buildLocalizations'] in terms of its body. *)
Lemma receive_build_run (env : Collaborators) (l : LocalizationsMessage) (w : World) :
  receiveMessageFromWebView env (buildLocalizationsCommand l) w =
  match buildLocalizationsBody env l w with
  | (Returned v, wb, tb) => (Returned v, wb, tb)
  | (Thrown error, wb, tb) =>
      (resultOf (buildLocalizationsCatch env error wb),
       worldOf (buildLocalizationsCatch env error wb),
       tb ++ traceOf (buildLocalizationsCatch env error wb))
  end.
Proof.
  cbn [receiveMessageFromWebView]. unfold tryCatch.
  destruct (buildLocalizationsBody env l w) as [[[v|error] wb] tb]; [reflexivity|].
  destruct (buildLocalizationsCatch env error wb) as [[r w'] t]. reflexivity.
Qed.

Lemma bodyEvent_not_cleanup (e : Event) : bodyEvent e = true -> isDeleteAll e = false.
Proof. destruct e; try reflexivity. discriminate. Qed.

Lemma bodyEvent_not_pipeline_of_saving (e : Event) :
  savingEvent e = true -> isPipelineEvent e = false.
Proof. destruct e; try reflexivity; discriminate. Qed.

Lemma bodyEvent_not_pipeline_of_showing (e : Event) :
  showingEvent e = true -> isPipelineEvent e = false.
Proof. destruct e; try reflexivity; discriminate. Qed.

Lemma isPipelineEvent_build (e : Event) :
  isBuildLocalizationExamples e = true -> isPipelineEvent e = true.
Proof. intros H. unfold isPipelineEvent. rewrite H. apply orb_true_r. Qed.

Lemma catch_not_pipeline (env : Collaborators) (error : Exception) (w : World) :
  existsb isPipelineEvent (traceOf (buildLocalizationsCatch env error w)) = false.
Proof.
  rewrite buildLocalizationsCatch_run.
  destruct (instanceofOperationCanceledException error); [reflexivity|].
  cbn zeta. cbn [traceOf snd].
  destruct (fst (deleteAllSubDirectoriesAndFiles env _ _)); reflexivity.
Qed.

(** C5. When the body of the build throws, the handler returns normally.
    For an [OperationCanceledException] it only hands the exception to
    [ExceptionHelper.show], which opens no error dialog for it; the cleanup
    is not called anywhere in the build and the files are as the body left
    them.  For any other exception it hands the exception to
    [ExceptionHelper.show], calls the cleanup of the temporary directory
    once, and when the cleanup throws, the error is logged as a warning and
    nothing more happens. *)
Theorem build_failure_is_handled
  (env : Collaborators) (l : LocalizationsMessage) (w : World)
  (error : Exception) (wb : World) (tb : list Event) :
  buildLocalizationsBody env l w = (Thrown error, wb, tb) ->
  resultOf (receiveMessageFromWebView env (buildLocalizationsCommand l) w) = Returned None /\
  (instanceofOperationCanceledException error = true ->
   receiveMessageFromWebView env (buildLocalizationsCommand l) w
     = (Returned None, wb, tb ++ [ExceptionShow error MsgUnexpectedBuildError]) /\
   errorDialogs [ExceptionShow error MsgUnexpectedBuildError] = [] /\
   existsb isDeleteAll
     (traceOf (receiveMessageFromWebView env (buildLocalizationsCommand l) w)) = false) /\
  (instanceofOperationCanceledException error = false ->
   receiveMessageFromWebView env (buildLocalizationsCommand l) w
     = (Returned None,
        mkWorld (_view wb) (_rule wb) (integrationTestTmpFilesPath wb)
          (snd (deleteAllSubDirectoriesAndFiles env (integrationTestTmpFilesPath wb)
                  (files wb)))
          (persisted wb),
        tb ++ ExceptionShow error MsgUnexpectedBuildError
           :: DeleteAllSubDirectoriesAndFiles (integrationTestTmpFilesPath wb)
           :: match fst (deleteAllSubDirectoriesAndFiles env
                           (integrationTestTmpFilesPath wb) (files wb)) with
              | Some error' => [LogWarn MsgTmpFilesCleanupError error']
              | None => []
              end)).
Proof.
  intros Hbody.
  pose proof (buildLocalizationsBody_events env l w) as Hevents.
  rewrite receive_build_run, Hbody. rewrite Hbody in Hevents. cbn [traceOf snd] in Hevents.
  rewrite buildLocalizationsCatch_run.
  destruct (instanceofOperationCanceledException error) eqn:Hcancel.
  - split; [reflexivity|]. split; [|discriminate].
    intros _. cbn [resultOf worldOf traceOf fst snd].
    split; [reflexivity|]. split.
    + destruct error; try discriminate Hcancel. reflexivity.
    + rewrite existsb_app.
      rewrite (forallb_excludes bodyEvent isDeleteAll tb bodyEvent_not_cleanup Hevents).
      reflexivity.
  - split; [reflexivity|]. split; [discriminate|]. intros _. reflexivity.
Qed.

Lemma build_failure_is_handled_witness :
  resultOf (receiveMessageFromWebView (Scenario.env None (inr true) (inr []) None)
              (buildLocalizationsCommand Scenario.distinct) Scenario.worldWithArtifacts)
    = Returned None /\
  errorDialogs
    (traceOf (receiveMessageFromWebView (Scenario.env None (inr true) (inr []) None)
                (buildLocalizationsCommand Scenario.distinct) Scenario.worldWithArtifacts))
    = [] /\
  existsb isDeleteAll
    (traceOf (receiveMessageFromWebView (Scenario.env None (inr true) (inr []) None)
                (buildLocalizationsCommand Scenario.distinct) Scenario.worldWithArtifacts))
    = false /\
  files (worldOf (receiveMessageFromWebView (Scenario.env None (inr true) (inr []) None)
                    (buildLocalizationsCommand Scenario.distinct)
                    Scenario.worldWithArtifacts))
    = files Scenario.worldWithArtifacts.
Proof.
  destruct (build_failure_is_handled
              (Scenario.env None (inr true) (inr []) None) Scenario.distinct
              Scenario.worldWithArtifacts OperationCanceledException
              (worldOf (buildLocalizationsBody (Scenario.env None (inr true) (inr []) None)
                          Scenario.distinct Scenario.worldWithArtifacts))
              (traceOf (buildLocalizationsBody (Scenario.env None (inr true) (inr []) None)
                          Scenario.distinct Scenario.worldWithArtifacts))
              ltac:(vm_compute; reflexivity))
    as (Hret & Hcancel & _).
  destruct (Hcancel eq_refl) as (Hrun & _ & Hclean).
  split; [exact Hret|].
  split; [rewrite Hrun; vm_compute; reflexivity|].
  split; [exact Hclean|].
  rewrite Hrun. vm_compute. reflexivity.
Defined.

(** A build whose tests fail and whose cleanup fails too: the exception is
    shown, the cleanup is called, its failure is logged, and the handler
    returns. *)
Example failed_build_is_cleaned_up :
  receiveMessageFromWebView
    (Scenario.env None (inr false) (inr []) (Some (OtherError 13)))
    (buildLocalizationsCommand Scenario.empty) Scenario.world
  = (Returned None,
     mkWorld (Some 1%nat)
       (Some (mkRule (lit "Rule_1") (lit "ru") (lit "en") [Scenario.oldEntry] [] None
                Default None))
       Scenario.tmpPath
       (<[Scenario.tmpPath := Directory []]> ∅)
       [mkRule (lit "Rule_1") (lit "ru") (lit "en") [Scenario.oldEntry] [] None Default None],
     [TreeRefresh
        (Some (mkRule (lit "Rule_1") (lit "old ru") (lit "old en") [Scenario.oldEntry] []
                 None Default None));
      SaveMetaInfoAndLocalizations
        (mkRule (lit "Rule_1") (lit "ru") (lit "en") [Scenario.oldEntry] [] None Default None);
      ProgressReport MsgProgressDependencies;
      GetIntegrationTestRunOptions
        (Some (mkRule (lit "Rule_1") (lit "ru") (lit "en") [Scenario.oldEntry] [] None
                 Default None)) Scenario.tmpPath;
      ProgressReport MsgProgressCorrelationEvents;
      TestRunnerRun
        (Some (mkRule (lit "Rule_1") (lit "ru") (lit "en") [Scenario.oldEntry] [] None
                 Default None)) Scenario.tmpPath (inr false);
      ExceptionShow (XpException MsgTestsFailed) MsgUnexpectedBuildError;
      DeleteAllSubDirectoriesAndFiles Scenario.tmpPath;
      LogWarn MsgTmpFilesCleanupError (OtherError 13)]).
Proof. vm_compute. reflexivity. Qed.

(** C4. When, during a build, the test run has ended with
    [testsStatus = false], [buildLocalizationExamples] is not called
    anywhere in that build, the [XpException] about the failed tests is
    handed to [ExceptionHelper.show], and the handler returns. *)
Theorem failed_tests_stop_the_build
  (env : Collaborators) (l : LocalizationsMessage) (w : World)
  (rule : option RuleBaseItem) (path : jsstring) :
  In (TestRunnerRun rule path (inr false))
     (traceOf (receiveMessageFromWebView env (buildLocalizationsCommand l) w)) ->
  existsb isBuildLocalizationExamples
    (traceOf (receiveMessageFromWebView env (buildLocalizationsCommand l) w)) = false /\
  In (ExceptionShow (XpException MsgTestsFailed) MsgUnexpectedBuildError)
     (traceOf (receiveMessageFromWebView env (buildLocalizationsCommand l) w)) /\
  resultOf (receiveMessageFromWebView env (buildLocalizationsCommand l) w) = Returned None.
Proof.
  assert (Hrun : isPipelineEvent (TestRunnerRun rule path (inr false)) = true)
    by reflexivity.
  rewrite receive_build_run, buildLocalizationsBody_run.
  destruct (isTestedLocalizationsRule env (_rule w)).
  2:{ cbn [traceOf snd In]. intros [Habs|[]]. discriminate Habs. }
  unfold obtainExamples, bind.
  pose proof (proj1 (resetAndSave_facts env l w)) as Hsave.
  apply (forallb_excludes _ _ _ bodyEvent_not_pipeline_of_saving) in Hsave.
  destruct (resetAndSave env l w) as [[[[]|e1] w1] t1]; cbn [traceOf snd] in Hsave.
  - pose proof (getLocalizationExamples_failed_tests env w1 rule path) as Hfailed.
    destruct (getLocalizationExamples env w1) as [[[ex|e2] w2] t2];
      cbn [resultOf traceOf fst snd] in Hfailed.
    + (* the examples were produced: the run cannot have failed *)
      pose proof (checkExamples_events env ex w2) as Hshow.
      apply (forallb_excludes _ _ _ bodyEvent_not_pipeline_of_showing) in Hshow.
      destruct (checkExamples env ex w2) as [[[v|e3] w3] t3]; cbn [traceOf snd] in Hshow |- *.
      * intros Hin. exfalso.
        apply in_app_or in Hin as [Hin|Hin];
          [apply in_app_or in Hin as [Hin|Hin]|].
        -- exact (not_in_of_existsb _ _ _ Hrun Hsave Hin).
        -- destruct (Hfailed Hin) as [Habs _]. discriminate Habs.
        -- exact (not_in_of_existsb _ _ _ Hrun Hshow Hin).
      * pose proof (catch_not_pipeline env e3 w3) as Hcatch.
        intros Hin. exfalso.
        apply in_app_or in Hin as [Hin|Hin];
          [apply in_app_or in Hin as [Hin|Hin];
           [apply in_app_or in Hin as [Hin|Hin]|]|].
        -- exact (not_in_of_existsb _ _ _ Hrun Hsave Hin).
        -- destruct (Hfailed Hin) as [Habs _]. discriminate Habs.
        -- exact (not_in_of_existsb _ _ _ Hrun Hshow Hin).
        -- exact (not_in_of_existsb _ _ _ Hrun Hcatch Hin).
    + (* the examples stage threw *)
      pose proof (catch_not_pipeline env e2 w2) as Hcatch.
      cbn [traceOf resultOf fst snd]. intros Hin.
      assert (Hin2 : In (TestRunnerRun rule path (inr false)) t2).
      { apply in_app_or in Hin as [Hin|Hin];
          [apply in_app_or in Hin as [Hin|Hin]|].
        - exfalso. exact (not_in_of_existsb _ _ _ Hrun Hsave Hin).
        - assumption.
        - exfalso. exact (not_in_of_existsb _ _ _ Hrun Hcatch Hin). }
      destruct (Hfailed Hin2) as [[= ->] Hnobuild].
      rewrite buildLocalizationsCatch_run in *. cbn [instanceofOperationCanceledException] in *.
      cbn zeta in *. cbn [traceOf resultOf fst snd] in *.
      split; [|split; [|reflexivity]].
      * rewrite !existsb_app, Hnobuild.
        rewrite (existsb_weaken _ _ _ isPipelineEvent_build Hsave).
        rewrite (existsb_weaken _ _ _ isPipelineEvent_build Hcatch). reflexivity.
      * apply in_or_app. right. now left.
  - (* the save threw *)
    pose proof (catch_not_pipeline env e1 w1) as Hcatch.
    cbn [traceOf snd]. intros Hin. exfalso.
    apply in_app_or in Hin as [Hin|Hin].
    + exact (not_in_of_existsb _ _ _ Hrun Hsave Hin).
    + exact (not_in_of_existsb _ _ _ Hrun Hcatch Hin).
Qed.

Lemma failed_tests_stop_the_build_witness :
  existsb isBuildLocalizationExamples
    (traceOf (receiveMessageFromWebView (Scenario.env None (inr false) (inr []) None)
                (buildLocalizationsCommand Scenario.empty) Scenario.world)) = false /\
  In (ExceptionShow (XpException MsgTestsFailed) MsgUnexpectedBuildError)
     (traceOf (receiveMessageFromWebView (Scenario.env None (inr false) (inr []) None)
                 (buildLocalizationsCommand Scenario.empty) Scenario.world)) /\
  resultOf (receiveMessageFromWebView (Scenario.env None (inr false) (inr []) None)
              (buildLocalizationsCommand Scenario.empty) Scenario.world) = Returned None.
Proof.
  apply (failed_tests_stop_the_build
           (Scenario.env None (inr false) (inr []) None) Scenario.empty Scenario.world
           (Some (mkRule (lit "Rule_1") (lit "ru") (lit "en") [Scenario.oldEntry] [] None
                    Default None))
           Scenario.tmpPath).
  vm_compute. repeat (first [left; reflexivity | right]).
Defined.

(** ** The status after a build *)

Lemma catch_keeps_rule (env : Collaborators) (error : Exception) (w : World) :
  _rule (worldOf (buildLocalizationsCatch env error w)) = _rule w.
Proof.
  rewrite buildLocalizationsCatch_run.
  destruct (instanceofOperationCanceledException error); reflexivity.
Qed.

Lemma statusFor_Unverified (env : Collaborators) (locExamples : list LocalizationExample) :
  statusFor env locExamples = Unverified <->
  exists le, In le locExamples /\ isDefaultLocalization env (ruText le) = true.
Proof.
  unfold statusFor.
  destruct (existsb (fun le => isDefaultLocalization env (ruText le)) locExamples) eqn:E.
  - apply existsb_exists in E. split; [intros _; exact E | reflexivity].
  - split; [discriminate|]. intros Hex. apply existsb_exists in Hex. congruence.
Qed.

Lemma statusFor_Verified (env : Collaborators) (locExamples : list LocalizationExample) :
  statusFor env locExamples = Verified <->
  forall le, In le locExamples -> isDefaultLocalization env (ruText le) = false.
Proof.
  unfold statusFor.
  destruct (existsb (fun le => isDefaultLocalization env (ruText le)) locExamples) eqn:E.
  - split; [discriminate|]. intros Hall.
    apply existsb_exists in E as (le & Hin & Hle). rewrite (Hall le Hin) in Hle.
    discriminate.
  - split; [|reflexivity]. intros _ le Hin.
    destruct (isDefaultLocalization env (ruText le)) eqn:Hle; [|reflexivity].
    assert (existsb (fun le => isDefaultLocalization env (ruText le)) locExamples = true)
      by (apply existsb_exists; eauto).
    congruence.
Qed.

(** C2 (amended). After a build of a tested rule that obtained the list
    [examples]: when the list is empty the status is [Default] (the status
    the build starts from) and the notice that no localization fired is
    shown; when the list is not empty the status is [Unverified] exactly
    when some example's [ruText] is a default localization, and [Verified]
    exactly when none is. *)
Theorem status_after_build
  (env : Collaborators) (l : LocalizationsMessage) (w : World)
  (examples : list LocalizationExample) :
  isTestedLocalizationsRule env (_rule w) = true ->
  resultOf (obtainExamples env l w) = Returned examples ->
  exists rule' : RuleBaseItem,
    _rule (worldOf (receiveMessageFromWebView env (buildLocalizationsCommand l) w))
      = Some rule' /\
    (examples = [] ->
     getStatus rule' = Default /\
     In (DialogShowInfo MsgNoLocalizationFired [])
        (traceOf (receiveMessageFromWebView env (buildLocalizationsCommand l) w))) /\
    (examples <> [] ->
     (getStatus rule' = Unverified <->
      exists le, In le examples /\ isDefaultLocalization env (ruText le) = true) /\
     (getStatus rule' = Verified <->
      forall le, In le examples -> isDefaultLocalization env (ruText le) = false)).
Proof.
  intros Htested Hobtained.
  rewrite receive_build_run, buildLocalizationsBody_run, Htested.
  (* the rule the examples stage leaves has the status Default *)
  assert (Hrule : exists rule1,
             _rule (worldOf (obtainExamples env l w)) = Some rule1 /\
             getStatus rule1 = Default).
  { revert Hobtained. unfold obtainExamples, bind.
    pose proof (proj2 (resetAndSave_facts env l w)) as Hsave.
    destruct (resetAndSave env l w) as [[[[]|e1] w1] t1]; [|discriminate].
    destruct (Hsave eq_refl) as (rule1 & Hrule1 & Hstatus).
    cbn [worldOf fst snd] in Hrule1.
    pose proof (proj1 (getLocalizationExamples_keeps_provider env w1)) as Hkeep.
    destruct (getLocalizationExamples env w1) as [[r2 w2] t2].
    cbn [worldOf fst snd] in Hkeep |- *.
    intros _. exists rule1. split; [congruence | assumption]. }
  destruct Hrule as (rule1 & Hrule1 & Hdefault).
  unfold bind.
  destruct (obtainExamples env l w) as [[[ex|e] w1] t1];
    cbn [resultOf worldOf fst snd] in Hobtained, Hrule1; [|discriminate].
  injection Hobtained as ->.
  destruct (checkExamples_status env examples w1 rule1 Hrule1) as (rule' & Hrule' & Hstatus).
  exists rule'.
  assert (Hfinal :
            _rule (worldOf
                     (let (p, t2) := checkExamples env examples w1 in
                      let (r, w2) := p in
                      match r with
                      | Returned v => (Returned v, w2, t1 ++ t2)
                      | Thrown error =>
                          (resultOf (buildLocalizationsCatch env error w2),
                           worldOf (buildLocalizationsCatch env error w2),
                           (t1 ++ t2) ++ traceOf (buildLocalizationsCatch env error w2))
                      end)) = Some rule').
  { destruct (checkExamples env examples w1) as [[[v|e3] w3] t3];
      cbn [worldOf fst snd] in Hrule' |- *; [assumption|].
    now rewrite catch_keeps_rule. }
  split.
  - destruct (checkExamples env examples w1) as [[[v|e3] w3] t3]; exact Hfinal.
  - split.
    + intros ->. split; [congruence|].
      rewrite checkExamples_empty. cbn [traceOf snd].
      apply in_or_app. right. now left.
    + intros Hne. destruct examples as [|le rest]; [contradiction|].
      rewrite Hstatus. split; [apply statusFor_Unverified | apply statusFor_Verified].
Qed.

Lemma status_after_build_witness :
  exists rule' : RuleBaseItem,
    _rule (worldOf (receiveMessageFromWebView
                      (Scenario.env None (inr true)
                         (inr [mkLocalizationExample (lit "user logged in") (lit "en");
                               mkLocalizationExample (lit "default") (lit "en")]) None)
                      (buildLocalizationsCommand Scenario.distinct) Scenario.world))
      = Some rule' /\
    getStatus rule' = Unverified.
Proof.
  destruct (status_after_build
              (Scenario.env None (inr true)
                 (inr [mkLocalizationExample (lit "user logged in") (lit "en");
                       mkLocalizationExample (lit "default") (lit "en")]) None)
              Scenario.distinct Scenario.world
              [mkLocalizationExample (lit "user logged in") (lit "en");
               mkLocalizationExample (lit "default") (lit "en")]
              eq_refl ltac:(vm_compute; reflexivity))
    as (rule' & Hrule & _ & Hstatus).
  exists rule'. split; [exact Hrule|].
  apply (proj1 (Hstatus ltac:(discriminate))).
  exists (mkLocalizationExample (lit "default") (lit "en")).
  split; [right; left; reflexivity | reflexivity].
Defined.

(** C2 as stated fails for the empty list: a build that obtains no
    example leaves the rule, [Verified] before, with the status [Default],
    not [Verified]. *)
Lemma no_examples_leave_default_status :
  resultOf (obtainExamples (Scenario.env None (inr true) (inr []) None)
              Scenario.distinct Scenario.world) = Returned [] /\
  option_map getStatus (_rule Scenario.world) = Some Verified /\
  option_map getStatus
    (_rule (worldOf (receiveMessageFromWebView (Scenario.env None (inr true) (inr []) None)
                       (buildLocalizationsCommand Scenario.distinct) Scenario.world)))
    = Some Default.
Proof. repeat split; vm_compute; reflexivity. Qed.

(** Builds with examples, on explicit inputs: one example of a default
    localization makes the rule [Unverified], examples without one make it
    [Verified]. *)
Example status_of_examples :
  option_map getStatus
    (_rule (worldOf (receiveMessageFromWebView
                       (Scenario.env None (inr true)
                          (inr [mkLocalizationExample (lit "default") (lit "en")]) None)
                       (buildLocalizationsCommand Scenario.distinct) Scenario.world)))
    = Some Unverified /\
  option_map getStatus
    (_rule (worldOf (receiveMessageFromWebView
                       (Scenario.env None (inr true)
                          (inr [mkLocalizationExample (lit "user logged in") (lit "en")]) None)
                       (buildLocalizationsCommand Scenario.distinct) Scenario.world)))
    = Some Verified.
Proof. split; vm_compute; reflexivity. Qed.

(** The prompt on explicit inputs: without earlier results the tests run
    at once; with earlier results a closed prompt cancels, "Использовать"
    skips the tests and "Повторить" runs them again. *)
Example reuse_prompt_check :
  traceOf (getLocalizationExamples Scenario.quiet Scenario.world)
    = [ProgressReport MsgProgressDependencies;
       GetIntegrationTestRunOptions (Some Scenario.rule) Scenario.tmpPath;
       ProgressReport MsgProgressCorrelationEvents;
       TestRunnerRun (Some Scenario.rule) Scenario.tmpPath (inr true);
       ProgressReport MsgProgressGeneration;
       BuildLocalizationExamples (Some Scenario.rule) Scenario.tmpPath] /\
  getLocalizationExamples (Scenario.env (Some []) (inr true) (inr []) None)
    Scenario.worldWithArtifacts
    = (Thrown OperationCanceledException, Scenario.worldWithArtifacts,
       [DialogShowInfo MsgPreviousResultsFound [USE_OLD_TESTS_RESULT; RESTART_TESTS]]) /\
  traceOf (getLocalizationExamples
             (Scenario.env (Some USE_OLD_TESTS_RESULT) (inr true) (inr []) None)
             Scenario.worldWithArtifacts)
    = [DialogShowInfo MsgPreviousResultsFound [USE_OLD_TESTS_RESULT; RESTART_TESTS];
       ProgressReport MsgProgressGeneration;
       BuildLocalizationExamples (Some Scenario.rule) Scenario.tmpPath] /\
  List.length (traceOf (getLocalizationExamples
                          (Scenario.env (Some RESTART_TESTS) (inr true) (inr []) None)
                          Scenario.worldWithArtifacts)) = 7%nat.
Proof. repeat split; vm_compute; reflexivity. Qed.

(** * Further properties of the sources *)

(** ** KbHelper.convertWindowsEOFToLinux *)

Lemma convert_cons (c : N) (rest : jsstring) :
  KbHelper.convertWindowsEOFToLinux (c :: rest) =
  match rest with
  | d :: rest' =>
      if (c =? 13) && (d =? 10)
      then 10 :: KbHelper.convertWindowsEOFToLinux rest'
      else c :: KbHelper.convertWindowsEOFToLinux rest
  | [] => [c]
  end.
Proof. destruct rest; reflexivity. Qed.

(** An induction principle that follows the two-character window of
    [convertWindowsEOFToLinux]. *)
Lemma window_ind (P : jsstring -> Prop) :
  P [] ->
  (forall c, P [c]) ->
  (forall rest, P rest -> P (13 :: 10 :: rest)) ->
  (forall c d rest, (c =? 13) && (d =? 10) = false -> P (d :: rest) -> P (c :: d :: rest)) ->
  forall s, P s.
Proof.
  intros Hnil Hone Hpair Hstep s.
  assert (H : P s /\ forall c, P (c :: s)); [|exact (proj1 H)].
  induction s as [|d rest [IH1 IH2]].
  - split; [exact Hnil | exact Hone].
  - split; [apply IH2|]. intros c.
    destruct ((c =? 13) && (d =? 10)) eqn:E.
    + apply andb_true_iff in E as [Ec Ed].
      apply N.eqb_eq in Ec, Ed. subst. apply Hpair, IH1.
    + apply Hstep; [exact E | apply IH2].
Qed.

Lemma toWindowsEOF_head (s : jsstring) :
  match toWindowsEOF s with
  | d :: _ => (d =? 10) = false
  | [] => s = []
  end.
Proof.
  destruct s as [|c s]; [reflexivity|].
  unfold toWindowsEOF. cbn [flat_map].
  destruct (c =? 10) eqn:E; cbn [app]; [reflexivity | exact E].
Qed.

Lemma withoutCR_cons (c : N) (s : jsstring) :
  withoutCR (c :: s) = if c =? 13 then withoutCR s else c :: withoutCR s.
Proof. unfold withoutCR. cbn [List.filter]. destruct (c =? 13); reflexivity. Qed.

(** X1. Writing a text with Windows line ends and converting it back gives
    the text again, whatever the text holds. *)
Theorem convert_after_toWindowsEOF (text : jsstring) :
  KbHelper.convertWindowsEOFToLinux (toWindowsEOF text) = text.
Proof.
  induction text as [|c text IH]; [reflexivity|].
  change (toWindowsEOF (c :: text))
    with ((if c =? 10 then [13; 10] else [c]) ++ toWindowsEOF text).
  destruct (N.eqb_spec c 10) as [->|Hc]; cbn [app].
  - rewrite convert_cons. cbn [N.eqb Pos.eqb andb]. now rewrite IH.
  - rewrite convert_cons.
    pose proof (toWindowsEOF_head text) as Hhead.
    destruct (toWindowsEOF text) as [|d rest] eqn:E.
    + now subst text.
    + rewrite Hhead, andb_false_r. now rewrite IH.
Qed.

(** X2. The conversion only ever drops carriage returns: without the
    carriage returns the result and the text are the same, and the result
    is never longer than the text. *)
Theorem convert_drops_only_carriage_returns (text : jsstring) :
  withoutCR (KbHelper.convertWindowsEOFToLinux text) = withoutCR text /\
  (List.length (KbHelper.convertWindowsEOFToLinux text) <= List.length text)%nat.
Proof.
  induction text as [| c | rest [IHf IHl] | c d rest Hno [IHf IHl]] using window_ind.
  - split; [reflexivity | apply Nat.le_refl].
  - split; [reflexivity | apply Nat.le_refl].
  - rewrite convert_cons. cbn [N.eqb Pos.eqb andb].
    split.
    + rewrite !withoutCR_cons.
      change (10 =? 13) with false. change (13 =? 13) with true.
      cbv iota. now rewrite IHf.
    + cbn [List.length]. lia.
  - rewrite convert_cons, Hno.
    split.
    + rewrite (withoutCR_cons c (d :: rest)), withoutCR_cons. now rewrite IHf.
    + cbn [List.length] in *. lia.
Qed.

(** X3. When every carriage return of the text stands directly before a
    line feed, the result is the text with all its carriage returns
    removed: no carriage return is left. *)
Theorem convert_of_windows_text (text : jsstring) :
  crOnlyBeforeLF text = true ->
  KbHelper.convertWindowsEOFToLinux text = withoutCR text /\
  ~ In 13 (KbHelper.convertWindowsEOFToLinux text).
Proof.
  intros Hwin.
  assert (Heq : KbHelper.convertWindowsEOFToLinux text = withoutCR text).
  { revert Hwin.
    induction text as [| c | rest IH | c d rest Hno IH] using window_ind; intros Hwin.
    - reflexivity.
    - cbn [crOnlyBeforeLF] in Hwin. rewrite andb_true_r, orb_false_r in Hwin.
      rewrite withoutCR_cons. destruct (c =? 13); [discriminate Hwin | reflexivity].
    - rewrite convert_cons. cbn [N.eqb Pos.eqb andb].
      rewrite !withoutCR_cons.
      change (10 =? 13) with false. change (13 =? 13) with true. cbv iota.
      rewrite IH; [reflexivity|].
      cbn [crOnlyBeforeLF] in Hwin.
      apply andb_true_iff in Hwin as [_ Hwin].
      apply andb_true_iff in Hwin as [_ Hwin]. exact Hwin.
    - rewrite convert_cons, Hno.
      change (crOnlyBeforeLF (c :: d :: rest))
        with ((negb (c =? 13) || (d =? 10)) && crOnlyBeforeLF (d :: rest)) in Hwin.
      apply andb_true_iff in Hwin as [Hc Hrest].
      rewrite (IH Hrest).
      assert (Hc13 : (c =? 13) = false).
      { destruct (c =? 13); [|reflexivity].
        cbn [negb orb andb] in Hc, Hno. congruence. }
      rewrite (withoutCR_cons c (d :: rest)). now rewrite Hc13. }
  split; [exact Heq|].
  rewrite Heq. unfold withoutCR. intros Hin.
  apply filter_In in Hin as [_ Hin]. discriminate Hin.
Qed.

Lemma convert_of_windows_text_witness :
  KbHelper.convertWindowsEOFToLinux (lit "a" ++ [13; 10] ++ lit "b" ++ [13; 10])
    = withoutCR (lit "a" ++ [13; 10] ++ lit "b" ++ [13; 10]) /\
  ~ In 13 (KbHelper.convertWindowsEOFToLinux (lit "a" ++ [13; 10] ++ lit "b" ++ [13; 10])).
Proof.
  apply (convert_of_windows_text (lit "a" ++ [13; 10] ++ lit "b" ++ [13; 10])).
  reflexivity.
Defined.

(** The conversion is one pass: a carriage return in front of a pair makes
    a new pair, which a second call would remove. *)
Example convert_is_not_idempotent :
  KbHelper.convertWindowsEOFToLinux [13; 13; 10] = [13; 10] /\
  KbHelper.convertWindowsEOFToLinux [13; 10] = [10].
Proof. split; reflexivity. Qed.

(** ** KbHelper: the digits of an object id *)

Lemma digits_fuel_S (f : nat) (n : N) (acc : jsstring) :
  digits_fuel (S f) n acc =
  if n / 10 =? 0 then (48 + n mod 10) :: acc
  else digits_fuel f (n / 10) ((48 + n mod 10) :: acc).
Proof. reflexivity. Qed.

Lemma digits_fuel_enough (f1 f2 : nat) (m : N) :
  m < 2 ^ N.of_nat (S f1) -> m < 2 ^ N.of_nat (S f2) ->
  digits_fuel (S f1) m [] = digits_fuel (S f2) m [].
Proof.
  revert f2 m; induction f1 as [|f1 IH]; intros f2 m H1 H2.
  - assert (Hm : m / 10 = 0).
    { apply N.div_small. change (2 ^ N.of_nat 1) with 2 in H1. lia. }
    rewrite !digits_fuel_S. now rewrite Hm.
  - rewrite (digits_fuel_S (S f1)), (digits_fuel_S f2).
    destruct (N.eqb_spec (m / 10) 0) as [Hz|Hnz]; [reflexivity|].
    assert (Hm10 : 10 <= m).
    { destruct (N.le_gt_cases 10 m) as [Hle|Hlt]; [exact Hle|].
      apply N.div_small in Hlt. contradiction. }
    destruct f2 as [|f2].
    { change (2 ^ N.of_nat 1) with 2 in H2. lia. }
    rewrite (digits_fuel_acc (S f1)), (digits_fuel_acc (S f2)).
    f_equal. apply IH.
    + apply N.Div0.div_lt_upper_bound.
      rewrite Nat2N.inj_succ, N.pow_succ_r' in H1.
      remember (2 ^ N.of_nat (S f1)) as p. lia.
    + apply N.Div0.div_lt_upper_bound.
      rewrite Nat2N.inj_succ, N.pow_succ_r' in H2.
      remember (2 ^ N.of_nat (S f2)) as p. lia.
Qed.

Lemma toString_fuel (f : nat) (m : N) :
  m < 2 ^ N.of_nat (S f) -> digits_fuel (S f) m [] = toString m.
Proof.
  intros Hm. unfold toString. apply digits_fuel_enough; [exact Hm|].
  destruct m as [|p]; [reflexivity|].
  rewrite Nat2N.inj_succ, N2Nat.id. apply N.log2_spec. lia.
Qed.

Lemma toString_small (n : N) : n < 10 -> toString n = [48 + n].
Proof.
  intros Hn. unfold toString. rewrite digits_fuel_S.
  rewrite (N.div_small n 10 Hn), (N.mod_small n 10 Hn). reflexivity.
Qed.

Lemma toString_step (n : N) :
  10 <= n -> toString n = toString (n / 10) ++ [48 + n mod 10].
Proof.
  intros Hn. unfold toString at 1. rewrite digits_fuel_S.
  assert (Hq : n / 10 <> 0).
  { intros Hz. apply N.div_small_iff in Hz; lia. }
  destruct (N.eqb_spec (n / 10) 0) as [Hz|_]; [contradiction|].
  assert (Hlog : 3 <= N.log2 n).
  { change 3 with (N.log2 8). apply N.log2_le_mono. lia. }
  destruct (N.to_nat (N.log2 n)) as [|f] eqn:Ef; [lia|].
  rewrite digits_fuel_acc. f_equal.
  apply toString_fuel.
  apply N.Div0.div_lt_upper_bound.
  assert (Hspec : n < 2 ^ N.succ (N.log2 n)) by (apply N.log2_spec; lia).
  replace (N.of_nat (S f)) with (N.log2 n) by lia.
  rewrite N.pow_succ_r' in Hspec.
  remember (2 ^ N.log2 n) as p. lia.
Qed.

(** A number below [10 ^ (k + 1)] prints with at most [k + 1] digits, and
    one from [10 ^ k] on with at least [k + 1]. *)
Lemma toString_length (k : nat) (n : N) :
  (n < 10 ^ N.of_nat (S k) -> (List.length (toString n) <= S k)%nat) /\
  (10 ^ N.of_nat k <= n -> (S k <= List.length (toString n))%nat).
Proof.
  revert n; induction k as [|k IH]; intros n.
  - split.
    + intros Hn. change (10 ^ N.of_nat 1) with 10 in Hn.
      rewrite (toString_small n Hn). apply Nat.le_refl.
    + intros _. apply toString_nonempty.
  - split.
    + intros Hn. destruct (N.lt_ge_cases n 10) as [Hsmall|Hbig].
      * rewrite (toString_small n Hsmall). cbn [List.length]. lia.
      * rewrite (toString_step n Hbig), length_app. cbn [List.length].
        assert (Hq : n / 10 < 10 ^ N.of_nat (S k)).
        { apply N.Div0.div_lt_upper_bound.
          rewrite (Nat2N.inj_succ (S k)), N.pow_succ_r' in Hn. exact Hn. }
        pose proof (proj1 (IH (n / 10)) Hq). lia.
    + intros Hn.
      rewrite Nat2N.inj_succ, N.pow_succ_r' in Hn.
      assert (Hpos : 1 <= 10 ^ N.of_nat k).
      { pose proof (N.pow_nonzero 10 (N.of_nat k) ltac:(lia)). lia. }
      assert (Hbig : 10 <= n).
      { remember (10 ^ N.of_nat k) as p. lia. }
      rewrite (toString_step n Hbig), length_app. cbn [List.length].
      assert (Hq : 10 ^ N.of_nat k <= n / 10).
      { apply N.div_le_lower_bound; [lia | exact Hn]. }
      pose proof (proj2 (IH (n / 10)) Hq). lia.
Qed.

Lemma toString_injective (a b : N) : toString a = toString b -> a = b.
Proof.
  intros H. rewrite <- (toString_value a), <- (toString_value b). now rewrite H.
Qed.

(** The digits of an object id are the decimal representation of the
    truncated checksum. *)
Lemma objectId_digits (crc : Z) :
  (Z.abs crc < 10000000000)%Z ->
  substring0 9 (KbHelper.absToString crc) = toString (truncatedChecksum crc).
Proof.
  intros Hrange. unfold KbHelper.absToString, truncatedChecksum, substring0.
  assert (Hn : Z.abs_N crc < 10000000000) by lia.
  remember (Z.abs_N crc) as n eqn:En. clear En Hrange.
  destruct (N.ltb_spec n 1000000000) as [Hsmall|Hbig].
  - apply firstn_all2.
    exact (proj1 (toString_length 8 n) Hsmall).
  - rewrite (toString_step n ltac:(lia)).
    assert (Hq1 : n / 10 < 10 ^ N.of_nat 9).
    { apply N.Div0.div_lt_upper_bound. exact Hn. }
    assert (Hq2 : 10 ^ N.of_nat 8 <= n / 10).
    { apply N.div_le_lower_bound; [lia | exact Hbig]. }
    pose proof (proj1 (toString_length 8 (n / 10)) Hq1) as Hle.
    pose proof (proj2 (toString_length 8 (n / 10)) Hq2) as Hge.
    assert (Hlen : List.length (toString (n / 10)) = 9%nat) by lia.
    rewrite firstn_app, Hlen, Nat.sub_diag. cbn [firstn].
    rewrite app_nil_r. apply firstn_all2. lia.
Qed.

Lemma digits_then_dash (a b x y : jsstring) :
  forallb isDigit a = true -> forallb isDigit b = true ->
  a ++ 45 :: x = b ++ 45 :: y -> a = b /\ x = y.
Proof.
  revert b; induction a as [|c a IH]; intros [|d b] Ha Hb E; cbn [app] in E.
  - injection E as ->. now split.
  - injection E as <- _. cbn [forallb] in Hb. discriminate Hb.
  - injection E as -> _. cbn [forallb] in Ha. discriminate Ha.
  - injection E as -> E. cbn [forallb] in Ha, Hb.
    apply andb_true_iff in Ha as [_ Ha]. apply andb_true_iff in Hb as [_ Hb].
    destruct (IH b Ha Hb E) as [-> ->]. now split.
Qed.

Lemma forallb_rev {A} (p : A -> bool) (l : list A) :
  forallb p l = true -> forallb p (rev l) = true.
Proof.
  rewrite !forallb_forall. intros H x Hx. apply H. now apply in_rev.
Qed.

Lemma objectId_digits_are_digits (crc32_str : jsstring -> Z) (ruleName : jsstring) :
  forallb isDigit (substring0 9 (KbHelper.absToString (crc32_str ruleName))) = true.
Proof. apply forallb_firstn, toString_digits. Qed.

(** X4. No id of a rule is the id of a package, whatever the names, the
    prefixes and the checksums are. *)
Theorem rule_id_is_never_package_id
  (crc32_str : jsstring -> Z) (ruleName packageName prefix prefix' : jsstring) :
  KbHelper.generateRuleObjectId crc32_str ruleName prefix
  <> KbHelper.generatePackageObjectId crc32_str packageName prefix'.
Proof.
  unfold KbHelper.generateRuleObjectId, KbHelper.generatePackageObjectId.
  cbv zeta. intros E.
  apply (f_equal (@rev N)) in E.
  rewrite !rev_app_distr in E.
  change (rev (lit "-CR-")) with ([45; 82; 67] ++ [45]) in E.
  change (rev (lit "-PKG-")) with ([45; 71; 75; 80] ++ [45]) in E.
  rewrite <- !app_assoc in E. cbn [app] in E.
  apply digits_then_dash in E as [_ E].
  - discriminate E.
  - apply forallb_rev, objectId_digits_are_digits.
  - apply forallb_rev, objectId_digits_are_digits.
Qed.

(** X5. For checksums in the range of a signed 32-bit integer, the digits
    of an id are the decimal representation of the absolute checksum
    without its tenth digit, if it has one; hence two names get the same
    rule id (and the same package id) under a prefix exactly when their
    checksums agree up to the sign and to that tenth digit. *)
Theorem object_ids_collide_on_truncated_checksum
  (crc32_str : jsstring -> Z) (name1 name2 prefix : jsstring) :
  (- 2147483648 <= crc32_str name1 <= 2147483647)%Z ->
  (- 2147483648 <= crc32_str name2 <= 2147483647)%Z ->
  KbHelper.generateRuleObjectId crc32_str name1 prefix
    = prefix ++ lit "-CR-" ++ toString (truncatedChecksum (crc32_str name1)) /\
  (KbHelper.generateRuleObjectId crc32_str name1 prefix
     = KbHelper.generateRuleObjectId crc32_str name2 prefix <->
   truncatedChecksum (crc32_str name1) = truncatedChecksum (crc32_str name2)) /\
  (KbHelper.generatePackageObjectId crc32_str name1 prefix
     = KbHelper.generatePackageObjectId crc32_str name2 prefix <->
   truncatedChecksum (crc32_str name1) = truncatedChecksum (crc32_str name2)).
Proof.
  intros H1 H2.
  unfold KbHelper.generateRuleObjectId, KbHelper.generatePackageObjectId. cbv zeta.
  rewrite !objectId_digits by lia.
  split; [reflexivity|].
  split; (split; [intros E; apply app_inv_head in E; apply app_inv_head in E;
                  now apply toString_injective
                 | now intros ->]).
Qed.

Lemma object_ids_collide_on_truncated_checksum_witness :
  KbHelper.generateRuleObjectId KbHelper.crc32_ref (lit "b") (lit "LOC")
    = lit "LOC" ++ lit "-CR-" ++ toString (truncatedChecksum (KbHelper.crc32_ref (lit "b"))) /\
  (KbHelper.generateRuleObjectId KbHelper.crc32_ref (lit "b") (lit "LOC")
     = KbHelper.generateRuleObjectId KbHelper.crc32_ref (lit "a") (lit "LOC") <->
   truncatedChecksum (KbHelper.crc32_ref (lit "b"))
     = truncatedChecksum (KbHelper.crc32_ref (lit "a"))) /\
  (KbHelper.generatePackageObjectId KbHelper.crc32_ref (lit "b") (lit "LOC")
     = KbHelper.generatePackageObjectId KbHelper.crc32_ref (lit "a") (lit "LOC") <->
   truncatedChecksum (KbHelper.crc32_ref (lit "b"))
     = truncatedChecksum (KbHelper.crc32_ref (lit "a"))).
Proof.
  apply (object_ids_collide_on_truncated_checksum
           KbHelper.crc32_ref (lit "b") (lit "a") (lit "LOC")).
  - vm_compute. split; discriminate.
  - vm_compute. split; discriminate.
Defined.

(** A collision: checksums 1908338681 and -1908338689 give the same id. *)
Example object_ids_collision :
  KbHelper.generateRuleObjectId
    (fun s => match s with [] => 1908338681%Z | _ => (-1908338689)%Z end) [] (lit "LOC")
  = KbHelper.generateRuleObjectId
      (fun s => match s with [] => 1908338681%Z | _ => (-1908338689)%Z end)
      (lit "x") (lit "LOC").
Proof. vm_compute. reflexivity. Qed.

(** ** XpHoverProvider *)

Lemma find_ext_in {A} (p q : A -> bool) (l : list A) :
  (forall x, In x l -> p x = q x) -> List.find p l = List.find q l.
Proof.
  induction l as [|x l IH]; intros H; [reflexivity|].
  cbn [List.find]. rewrite <- (H x (or_introl eq_refl)).
  destruct (p x); [reflexivity|]. apply IH. intros y Hy. apply H. now right.
Qed.

Lemma find_none_existsb {A} (p : A -> bool) (l : list A) :
  List.find p l = None <-> existsb p l = false.
Proof.
  induction l as [|x l IH]; [easy|].
  cbn [List.find existsb]. destruct (p x); [easy | exact IH].
Qed.

(** X6. [provideHover] answers [null] exactly on an empty or blank line.
    Otherwise a function named like the token wins over every taxonomy
    field: the hover is that of the first such function; without such a
    function it is that of the first taxonomy field whose label is the
    token, or the token without its leading dollar sign; and the hover has
    no contents exactly when neither exists. *)
Theorem provideHover_outcome
  (signatures : list XpHoverProvider.CompleteSignature)
  (taxonomy : list XpHoverProvider.CompletionItem)
  (isEmptyOrWhitespace : bool) (token : jsstring) :
  (XpHoverProvider.provideHover signatures taxonomy isEmptyOrWhitespace token
     = XpHoverProvider.ReturnsNull <-> isEmptyOrWhitespace = true) /\
  (forall sign before after,
      signatures = before ++ sign :: after ->
      existsb (fun s => streq (XpHoverProvider.name s) token) before = false ->
      XpHoverProvider.name sign = token ->
      XpHoverProvider.provideHover signatures taxonomy false token
        = XpHoverProvider.getFuncHover sign) /\
  (forall field before after,
      existsb (fun s => streq (XpHoverProvider.name s) token) signatures = false ->
      taxonomy = before ++ field :: after ->
      existsb (XpHoverProvider.matchesTaxonomy token) before = false ->
      XpHoverProvider.matchesTaxonomy token field = true ->
      XpHoverProvider.provideHover signatures taxonomy false token
        = XpHoverProvider.getTaxonomyField field) /\
  (XpHoverProvider.provideHover signatures taxonomy false token
     = XpHoverProvider.NullContents <->
   existsb (fun s => streq (XpHoverProvider.name s) token) signatures = false /\
   existsb (XpHoverProvider.matchesTaxonomy token) taxonomy = false).
Proof.
  assert (Hfind : forall {A} (p : A -> bool) before x after,
             existsb p before = false -> p x = true ->
             List.find p (before ++ x :: after) = Some x).
  { intros A p before x after Hb Hx.
    induction before as [|y before IH]; cbn [app List.find].
    - now rewrite Hx.
    - cbn [existsb] in Hb. apply orb_false_iff in Hb as [Hy Hb].
      rewrite Hy. now apply IH. }
  unfold XpHoverProvider.provideHover. split; [|split; [|split]].
  - destruct isEmptyOrWhitespace; [easy|].
    split; [|discriminate].
    destruct (List.find _ signatures); [discriminate|].
    destruct (List.find _ taxonomy); discriminate.
  - intros sign before after -> Hbefore Hname. cbv zeta.
    rewrite (Hfind _ _ before sign after Hbefore); [reflexivity|].
    rewrite Hname. apply streq_refl.
  - intros field before after Hnone -> Hbefore Hfield. cbv zeta.
    apply find_none_existsb in Hnone. rewrite Hnone.
    now rewrite (Hfind _ _ before field after Hbefore Hfield).
  - cbv zeta. rewrite <- !find_none_existsb.
    destruct (List.find _ signatures); [split; [discriminate | intros [[=] _]]|].
    destruct (List.find _ taxonomy); [split; [discriminate | intros [_ [=]]]|].
    easy.
Qed.

(** X7. A token with a leading dollar sign is answered like the bare
    token, as long as no function is named like either of them, no
    taxonomy label carries the dollar sign itself and the bare token does
    not start with a dollar sign. *)
Theorem provideHover_dollar_token
  (signatures : list XpHoverProvider.CompleteSignature)
  (taxonomy : list XpHoverProvider.CompletionItem)
  (isEmptyOrWhitespace : bool) (token : jsstring) :
  XpHoverProvider.startsWithDollar token = false ->
  existsb (fun s => streq (XpHoverProvider.name s) (36 :: token)) signatures = false ->
  existsb (fun s => streq (XpHoverProvider.name s) token) signatures = false ->
  existsb (fun t => XpHoverProvider.labelIs t (36 :: token)) taxonomy = false ->
  XpHoverProvider.provideHover signatures taxonomy isEmptyOrWhitespace (36 :: token)
    = XpHoverProvider.provideHover signatures taxonomy isEmptyOrWhitespace token.
Proof.
  intros Hbare Hdollar Hname Hlabel.
  unfold XpHoverProvider.provideHover.
  destruct isEmptyOrWhitespace; [reflexivity|]. cbv zeta.
  apply find_none_existsb in Hdollar, Hname. rewrite Hdollar, Hname.
  rewrite (find_ext_in (XpHoverProvider.matchesTaxonomy (36 :: token))
             (XpHoverProvider.matchesTaxonomy token) taxonomy); [reflexivity|].
  intros t Ht. unfold XpHoverProvider.matchesTaxonomy.
  rewrite Hbare. cbn [XpHoverProvider.startsWithDollar List.tl andb].
  rewrite N.eqb_refl, orb_false_r. cbn [andb].
  assert (Hno : XpHoverProvider.labelIs t (36 :: token) = false).
  { destruct (XpHoverProvider.labelIs t (36 :: token)) eqn:E; [|reflexivity].
    assert (existsb (fun t => XpHoverProvider.labelIs t (36 :: token)) taxonomy = true)
      by (apply existsb_exists; eauto).
    congruence. }
  now rewrite Hno.
Qed.

Lemma provideHover_dollar_token_witness :
  XpHoverProvider.provideHover
    [XpHoverProvider.mkSignature (lit "lower") (lit "lower(s)") (lit "d") [lit "s"] []]
    [XpHoverProvider.mkCompletionItem (XpHoverProvider.LabelString (lit "src.ip"))
       (Some (lit "address")) None]
    false (36 :: lit "src.ip")
  = XpHoverProvider.provideHover
      [XpHoverProvider.mkSignature (lit "lower") (lit "lower(s)") (lit "d") [lit "s"] []]
      [XpHoverProvider.mkCompletionItem (XpHoverProvider.LabelString (lit "src.ip"))
         (Some (lit "address")) None]
      false (lit "src.ip").
Proof.
  apply (provideHover_dollar_token
           [XpHoverProvider.mkSignature (lit "lower") (lit "lower(s)") (lit "d") [lit "s"] []]
           [XpHoverProvider.mkCompletionItem (XpHoverProvider.LabelString (lit "src.ip"))
              (Some (lit "address")) None]
           false (lit "src.ip")); reflexivity.
Defined.

Lemma spaceAfterLastParam_snoc (ps : list jsstring) (p : jsstring) :
  XpHoverProvider.spaceAfterLastParam (ps ++ [p]) = ps ++ [p ++ [10; 10]].
Proof.
  induction ps as [|q ps IH]; [reflexivity|].
  cbn [app]. destruct (ps ++ [p]) as [|x rest] eqn:E.
  - now destruct ps.
  - change (XpHoverProvider.spaceAfterLastParam (q :: x :: rest))
      with (q :: XpHoverProvider.spaceAfterLastParam (x :: rest)).
    now rewrite IH.
Qed.

(** X8. The preparation of the signatures in [init] leaves the function
    found for a token and its name, prototype, description and examples as
    they were; of its parameters only the last one changes, by two line
    feeds at its end, and a function without parameters still has none. *)
Theorem prepareSignatures_keeps_lookup
  (signaturesPlain : list XpHoverProvider.CompleteSignature) (token : jsstring) :
  (List.find (fun s => streq (XpHoverProvider.name s) token)
     (XpHoverProvider.prepareSignatures signaturesPlain)
   = option_map
       (fun s => XpHoverProvider.mkSignature
                   (XpHoverProvider.name s) (XpHoverProvider.signature s)
                   (XpHoverProvider.description s)
                   (XpHoverProvider.spaceAfterLastParam (XpHoverProvider.params s))
                   (XpHoverProvider.examples s))
       (List.find (fun s => streq (XpHoverProvider.name s) token) signaturesPlain)) /\
  (forall ps p,
      XpHoverProvider.spaceAfterLastParam (ps ++ [p]) = ps ++ [p ++ [10; 10]]) /\
  XpHoverProvider.spaceAfterLastParam [] = [].
Proof.
  split; [|split; [exact spaceAfterLastParam_snoc | reflexivity]].
  unfold XpHoverProvider.prepareSignatures.
  induction signaturesPlain as [|s rest IH]; [reflexivity|].
  cbn [List.map List.find XpHoverProvider.name].
  destruct (streq (XpHoverProvider.name s) token); [reflexivity | exact IH].
Qed.

(** ** updateView: the rows of the localizations *)

Lemma plainLocalization_spec (loc : Localization) :
  if acceptedByView loc
  then plainLocalization loc = inr (rowOf loc)
  else exists error, plainLocalization loc = inl error.
Proof.
  unfold acceptedByView, plainLocalization, rowOf.
  destruct (getLocalizationId loc) as [[|c id]|]; cbn [truthy andb].
  - now exists LocalizationIdNotSet.
  - destruct (getCriteria loc) as [|k criteria]; cbn [List.length Nat.eqb negb andb].
    + now eexists.
    + destruct (truthy (getRuLocalizationText loc)),
        (truthy (getEnLocalizationText loc)); cbn [negb andb orb];
        try reflexivity.
      now eexists.
  - now exists LocalizationIdNotSet.
Qed.

(** X9. The rows of [updateView] exist exactly when every localization of
    the rule has a non-empty id, a non-empty criterion and at least one
    non-empty text; they are then one row per localization, in order, with
    the id, the criterion and the two texts of the localization, a missing
    text being the empty string. *)
Theorem plainLocalizations_accepts
  (localizations : list Localization) (rows : list PlainLocalization) :
  plainLocalizations localizations = inr rows <->
  forallb acceptedByView localizations = true /\ rows = List.map rowOf localizations.
Proof.
  revert rows; induction localizations as [|loc rest IH]; intros rows.
  - cbn. split; [intros [= <-]; now split | intros [_ ->]; reflexivity].
  - cbn [plainLocalizations forallb List.map].
    pose proof (plainLocalization_spec loc) as Hloc.
    destruct (acceptedByView loc).
    + rewrite Hloc. cbn [andb].
      destruct (plainLocalizations rest) as [error|rows'] eqn:E.
      * split; [discriminate|]. intros [Hall ->].
        discriminate (proj2 (IH (List.map rowOf rest)) (conj Hall eq_refl)).
      * destruct (proj1 (IH rows') eq_refl) as [Hall ->].
        split; [intros [= <-]; now split | intros [_ ->]; reflexivity].
    + destruct Hloc as [error ->]. cbn [andb].
      split; [discriminate | intros [[=] _]].
Qed.

(** X10. When the rows cannot be made, the exception is the one of the
    first localization that is not accepted, whatever comes after it; a
    localization without an id is reported as such even when its criterion
    and texts are missing too. *)
Theorem plainLocalizations_first_error
  (good rest : list Localization) (bad : Localization) :
  forallb acceptedByView good = true ->
  acceptedByView bad = false ->
  exists error,
    plainLocalization bad = inl error /\
    plainLocalizations (good ++ bad :: rest) = inl error /\
    (truthy (getLocalizationId bad) = false -> error = LocalizationIdNotSet).
Proof.
  intros Hgood Hbad.
  pose proof (plainLocalization_spec bad) as Hspec. rewrite Hbad in Hspec.
  destruct Hspec as [error Herror]. exists error.
  split; [exact Herror|]. split.
  - induction good as [|loc good IH]; cbn [app plainLocalizations].
    + now rewrite Herror.
    + cbn [forallb] in Hgood. apply andb_true_iff in Hgood as [Hloc Hgood].
      pose proof (plainLocalization_spec loc) as Hrow. rewrite Hloc in Hrow.
      rewrite Hrow, (IH Hgood). reflexivity.
  - intros Hid. unfold plainLocalization in Herror.
    destruct (getLocalizationId bad) as [[|c id]|]; cbn [truthy] in Hid;
      [congruence | discriminate Hid | congruence].
Qed.

Lemma plainLocalizations_first_error_witness :
  exists error,
    plainLocalization (mkLocalization [] None None None) = inl error /\
    plainLocalizations ([Scenario.oldEntry] ++ mkLocalization [] None None None :: [])
      = inl error /\
    (truthy (getLocalizationId (mkLocalization [] None None None)) = false ->
     error = LocalizationIdNotSet).
Proof.
  apply (plainLocalizations_first_error
           [Scenario.oldEntry] [] (mkLocalization [] None None None));
    reflexivity.
Defined.

(** ** The message handler as a whole *)

Lemma saveLocalization_no_rule (env : Collaborators) (l : LocalizationsMessage)
      (informUser : bool) (w : World) :
  _rule w = None -> saveLocalization env l informUser w = (Thrown TypeError, w, []).
Proof.
  intros Hrule. unfold saveLocalization.
  unfold bind at 1. unfold updateThisRule at 1, bind at 1, thisRule at 1.
  now rewrite Hrule.
Qed.

(** [saveLocalization] touches the rule and the persisted rules only, and
    calls nothing but the error dialog, the persistence and the notice. *)
Lemma saveLocalization_frame (env : Collaborators) (l : LocalizationsMessage)
      (informUser : bool) (w : World) :
  integrationTestTmpFilesPath (worldOf (saveLocalization env l informUser w))
    = integrationTestTmpFilesPath w /\
  files (worldOf (saveLocalization env l informUser w)) = files w /\
  _view (worldOf (saveLocalization env l informUser w)) = _view w /\
  forallb (fun e => savingEvent e || isSavedNotice e)
    (traceOf (saveLocalization env l informUser w)) = true.
Proof.
  destruct (_rule w) as [rule|] eqn:Hrule.
  - rewrite (saveLocalization_run env l informUser w rule Hrule). cbv zeta.
    destruct (JsHelper.findDuplicates (List.map trim (Criteria l))); [repeat split|].
    match goal with
    | |- context [saveThrows env ?r] => destruct (saveThrows env r)
    end; [repeat split|].
    destruct informUser; repeat split.
  - rewrite (saveLocalization_no_rule env l informUser w Hrule). repeat split.
Qed.

Lemma receive_save_run (env : Collaborators) (l : LocalizationsMessage) (w : World) :
  receiveMessageFromWebView env (saveLocalizationsCommand l) w =
  match resultOf (saveLocalization env l true w) with
  | Returned _ =>
      (Returned None, worldOf (saveLocalization env l true w),
       traceOf (saveLocalization env l true w))
  | Thrown error =>
      (Returned None, worldOf (saveLocalization env l true w),
       traceOf (saveLocalization env l true w) ++ [ExceptionShow error MsgSaveFailed])
  end.
Proof.
  cbn [receiveMessageFromWebView]. unfold tryCatch, bind.
  destruct (saveLocalization env l true w) as [[[[]|error] w1] t1];
    cbn [resultOf worldOf traceOf fst snd ret ExceptionHelper_show emit app].
  - now rewrite app_nil_r.
  - reflexivity.
Qed.

Lemma checkExamples_keeps_path (env : Collaborators)
      (locExamples : list LocalizationExample) (w : World) :
  integrationTestTmpFilesPath (worldOf (checkExamples env locExamples w))
    = integrationTestTmpFilesPath w.
Proof.
  destruct locExamples as [|le rest]; [reflexivity|].
  unfold checkExamples.
  cbn [List.length Nat.eqb].
  destruct (existsb (fun le0 => isDefaultLocalization env (ruText le0)) (le :: rest));
    unfold showLocalizationEditor, updateThisRule, ContentTreeProvider_refresh, tryCatch,
      updateView, thisRule, setThisRule, setThisView, setTmpFilesPath;
    run_step;
    (destruct (_rule w); run_step; [|reflexivity]);
    (destruct (refreshThrows env _); run_step; [reflexivity|]);
    destruct (_view w); run_step;
    destruct (createWebviewPanel env); run_step; reflexivity.
Qed.

Lemma resetAndSave_keeps_path (env : Collaborators) (l : LocalizationsMessage) (w : World) :
  integrationTestTmpFilesPath (worldOf (resetAndSave env l w))
    = integrationTestTmpFilesPath w.
Proof.
  rewrite resetAndSave_run.
  destruct (_rule w) as [rule|]; [|reflexivity]. cbv zeta.
  destruct (refreshThrows env _); [reflexivity|].
  cbn [worldOf fst snd].
  exact (proj1 (saveLocalization_frame env l false _)).
Qed.

Lemma catch_keeps_path (env : Collaborators) (error : Exception) (w : World) :
  integrationTestTmpFilesPath (worldOf (buildLocalizationsCatch env error w))
    = integrationTestTmpFilesPath w.
Proof.
  rewrite buildLocalizationsCatch_run.
  destruct (instanceofOperationCanceledException error); reflexivity.
Qed.

Lemma buildLocalizationsBody_keeps_path (env : Collaborators) (l : LocalizationsMessage)
      (w : World) :
  integrationTestTmpFilesPath (worldOf (buildLocalizationsBody env l w))
    = integrationTestTmpFilesPath w.
Proof.
  rewrite buildLocalizationsBody_run.
  destruct (isTestedLocalizationsRule env (_rule w)); [|reflexivity].
  unfold obtainExamples, bind.
  pose proof (resetAndSave_keeps_path env l w) as H1.
  destruct (resetAndSave env l w) as [[[[]|e1] w1] t1]; cbn [worldOf fst snd] in H1 |- *;
    [|exact H1].
  pose proof (getLocalizationExamples_keeps_provider env w1) as (_ & _ & H2 & _).
  destruct (getLocalizationExamples env w1) as [[[ex|e2] w2] t2];
    cbn [worldOf fst snd] in H2 |- *; [|congruence].
  pose proof (checkExamples_keeps_path env ex w2) as H3.
  destruct (checkExamples env ex w2) as [[r3 w3] t3]; cbn [worldOf fst snd] in H3 |- *.
  congruence.
Qed.


(** X12. The handler never changes the directory of the temporary files
    of the provider, whatever the message; and a ['saveLocalizations']
    message leaves the files and the view as they are and calls neither the
    test run, nor the generation of examples, nor the cleanup. *)
Theorem handler_keeps_the_session
  (env : Collaborators) (message : WebViewMessage) (l : LocalizationsMessage) (w : World) :
  integrationTestTmpFilesPath (worldOf (receiveMessageFromWebView env message w))
    = integrationTestTmpFilesPath w /\
  files (worldOf (receiveMessageFromWebView env (saveLocalizationsCommand l) w)) = files w /\
  _view (worldOf (receiveMessageFromWebView env (saveLocalizationsCommand l) w)) = _view w /\
  existsb (fun e => isPipelineEvent e || isDeleteAll e)
    (traceOf (receiveMessageFromWebView env (saveLocalizationsCommand l) w)) = false.
Proof.
  split.
  - destruct message as [l'|l'|]; [| |reflexivity].
    + rewrite receive_build_run.
      pose proof (buildLocalizationsBody_keeps_path env l' w) as Hbody.
      destruct (buildLocalizationsBody env l' w) as [[[v|error] wb] tb];
        cbn [worldOf fst snd] in Hbody |- *; [exact Hbody|].
      now rewrite catch_keeps_path.
    + rewrite receive_save_run.
      pose proof (saveLocalization_frame env l' true w) as (Hpath & _).
      destruct (resultOf (saveLocalization env l' true w)); exact Hpath.
  - rewrite receive_save_run.
    pose proof (saveLocalization_frame env l true w) as (_ & Hfiles & Hview & Hevents).
    assert (Hquiet : existsb (fun e => isPipelineEvent e || isDeleteAll e)
                       (traceOf (saveLocalization env l true w)) = false).
    { revert Hevents. apply forallb_excludes.
      intros e He. destruct e; try reflexivity; discriminate He. }
    destruct (resultOf (saveLocalization env l true w));
      cbn [worldOf traceOf fst snd]; repeat split; try assumption.
    rewrite existsb_app, Hquiet. reflexivity.
Qed.

(** ** When a rule becomes [Verified] *)





(** ** Saving *)

Lemma cons_neq_self {A} (x : A) (l : list A) : x :: l <> l.
Proof.
  intros E. apply (f_equal (@List.length A)) in E. cbn [List.length] in E. lia.
Qed.

(** X14. On a ['saveLocalizations'] message for a provider with a rule,
    the notice that the localizations are saved is shown exactly when the
    rule, as the provider holds it afterwards, was added to the persisted
    rules; otherwise the persisted rules are the ones from before.  The
    notice names the rule and is shown only for pairwise distinct trimmed
    criteria. *)
Theorem saved_notice_means_persisted
  (env : Collaborators) (l : LocalizationsMessage) (w : World) (rule : RuleBaseItem) :
  _rule w = Some rule ->
  (existsb isSavedNotice
     (traceOf (receiveMessageFromWebView env (saveLocalizationsCommand l) w)) = true <->
   exists rule',
     _rule (worldOf (receiveMessageFromWebView env (saveLocalizationsCommand l) w))
       = Some rule' /\
     persisted (worldOf (receiveMessageFromWebView env (saveLocalizationsCommand l) w))
       = rule' :: persisted w) /\
  (existsb isSavedNotice
     (traceOf (receiveMessageFromWebView env (saveLocalizationsCommand l) w)) = false ->
   persisted (worldOf (receiveMessageFromWebView env (saveLocalizationsCommand l) w))
     = persisted w) /\
  (existsb isSavedNotice
     (traceOf (receiveMessageFromWebView env (saveLocalizationsCommand l) w)) = true ->
   List.NoDup (List.map trim (Criteria l)) /\
   In (DialogShowInfo (MsgLocalizationsSaved (getName rule)) [])
      (traceOf (receiveMessageFromWebView env (saveLocalizationsCommand l) w))).
Proof.
  intros Hrule.
  rewrite receive_save_run, (saveLocalization_run env l true w rule Hrule). cbv zeta.
  destruct (JsHelper.findDuplicates (List.map trim (Criteria l))) as [d|] eqn:Hd.
  - cbn [resultOf worldOf traceOf fst snd existsb isSavedNotice orb withRule persisted _rule].
    split; [split; [discriminate|]|split; [reflexivity | discriminate]].
    intros (rule' & _ & Habs). symmetry in Habs. now apply cons_neq_self in Habs.
  - apply findDuplicates_None in Hd.
    match goal with
    | |- context [saveThrows env ?r] => set (rule2 := r); destruct (saveThrows env rule2)
    end.
    + cbn [resultOf worldOf traceOf fst snd existsb isSavedNotice orb app withRule
           persisted _rule].
      split; [split; [discriminate|]|split; [reflexivity | discriminate]].
      intros (rule' & _ & Habs). symmetry in Habs. now apply cons_neq_self in Habs.
    + cbn [resultOf worldOf traceOf fst snd existsb isSavedNotice orb persisted _rule].
      split; [split; [intros _; now exists rule2 | reflexivity]|].
      split; [discriminate|]. intros _. split; [exact Hd|].
      right. left. subst rule2. destruct (negb _); reflexivity.
Qed.

Lemma saved_notice_means_persisted_witness :
  existsb isSavedNotice
    (traceOf (receiveMessageFromWebView Scenario.quiet
                (saveLocalizationsCommand Scenario.distinct) Scenario.world)) = true /\
  exists rule',
    _rule (worldOf (receiveMessageFromWebView Scenario.quiet
                      (saveLocalizationsCommand Scenario.distinct) Scenario.world))
      = Some rule' /\
    persisted (worldOf (receiveMessageFromWebView Scenario.quiet
                          (saveLocalizationsCommand Scenario.distinct) Scenario.world))
      = rule' :: persisted Scenario.world.
Proof.
  split; [vm_compute; reflexivity|].
  apply (proj1 (saved_notice_means_persisted
                  Scenario.quiet Scenario.distinct Scenario.world Scenario.rule eq_refl)).
  vm_compute. reflexivity.
Defined.

(** X15. Saving the same message a second time leaves the rule as the
    first save left it, whether or not either save could persist it. *)
Theorem saveLocalization_twice
  (env : Collaborators) (l : LocalizationsMessage) (informUser informUser' : bool)
  (w : World) (rule : RuleBaseItem) :
  _rule w = Some rule ->
  _rule (worldOf (saveLocalization env l informUser'
                    (worldOf (saveLocalization env l informUser w))))
    = _rule (worldOf (saveLocalization env l informUser w)).
Proof.
  intros Hrule.
  assert (Hstep : forall b w0 rule0,
             _rule w0 = Some rule0 ->
             _rule (worldOf (saveLocalization env l b w0))
             = Some (match JsHelper.findDuplicates (List.map trim (Criteria l)) with
                     | Some _ => withDescriptions l rule0
                     | None =>
                         if negb (Nat.eqb (List.length (submittedEntries env l)) 0)
                         then setLocalizationTemplates (submittedEntries env l)
                                (withDescriptions l rule0)
                         else withDescriptions l rule0
                     end)).
  { intros b w0 rule0 H0. rewrite (saveLocalization_run env l b w0 rule0 H0). cbv zeta.
    destruct (JsHelper.findDuplicates (List.map trim (Criteria l))); [reflexivity|].
    match goal with
    | |- context [saveThrows env ?r] => destruct (saveThrows env r)
    end; reflexivity. }
  rewrite (Hstep informUser w rule Hrule).
  rewrite (Hstep informUser' _ _ (Hstep informUser w rule Hrule)).
  f_equal.
  destruct (JsHelper.findDuplicates (List.map trim (Criteria l))); [reflexivity|].
  destruct (negb (Nat.eqb (List.length (submittedEntries env l)) 0)); reflexivity.
Qed.

Lemma saveLocalization_twice_witness :
  _rule (worldOf (saveLocalization Scenario.quiet Scenario.distinct true
                    (worldOf (saveLocalization Scenario.quiet Scenario.distinct false
                                Scenario.world))))
    = _rule (worldOf (saveLocalization Scenario.quiet Scenario.distinct false
                        Scenario.world)).
Proof.
  apply (saveLocalization_twice Scenario.quiet Scenario.distinct false true
           Scenario.world Scenario.rule).
  reflexivity.
Defined.

(** ** Reuse or regeneration of the test results *)



(** X17. When earlier results exist and the user answers the prompt with
    anything but "Повторить" (an answer that is not empty), no test is run
    and no file changes: the examples are generated from the files as they
    are, and the provider is in the state it was in. *)
Theorem reuse_generates_from_old_files
  (env : Collaborators) (w : World) (item : jsstring) (items : list jsstring)
  (chosen : jsstring) :
  files w !! integrationTestTmpFilesPath w = Some (Directory (item :: items)) ->
  showInfoAnswer env MsgPreviousResultsFound [USE_OLD_TESTS_RESULT; RESTART_TESTS]
    = Some chosen ->
  chosen <> [] ->
  chosen <> RESTART_TESTS ->
  getLocalizationExamples env w
    = (match buildLocalizationExamples env (_rule w) (integrationTestTmpFilesPath w)
               (files w) with
       | inl error => Thrown error
       | inr locExamples => Returned locExamples
       end,
       w,
       [DialogShowInfo MsgPreviousResultsFound [USE_OLD_TESTS_RESULT; RESTART_TESTS];
        ProgressReport MsgProgressGeneration;
        BuildLocalizationExamples (_rule w) (integrationTestTmpFilesPath w)]).
Proof.
  intros Hfs Hanswer Hne Hnot.
  unfold getLocalizationExamples. unfold bind at 1.
  rewrite askAboutPreviousResults_run, Hfs. cbv zeta. rewrite Hanswer.
  destruct chosen as [|c chosen]; [contradiction|].
  cbn [truthy negb orb].
  destruct (streq (c :: chosen) RESTART_TESTS) eqn:Hrestart.
  - apply streq_spec in Hrestart. contradiction.
  - unfold bind. cbn [ret]. rewrite generateExamples_run. reflexivity.
Qed.

Lemma reuse_generates_from_old_files_witness :
  getLocalizationExamples
    (Scenario.env (Some USE_OLD_TESTS_RESULT) (inr true) (inr []) None)
    Scenario.worldWithArtifacts
  = (match buildLocalizationExamples
             (Scenario.env (Some USE_OLD_TESTS_RESULT) (inr true) (inr []) None)
             (_rule Scenario.worldWithArtifacts)
             (integrationTestTmpFilesPath Scenario.worldWithArtifacts)
             (files Scenario.worldWithArtifacts) with
     | inl error => Thrown error
     | inr locExamples => Returned locExamples
     end,
     Scenario.worldWithArtifacts,
     [DialogShowInfo MsgPreviousResultsFound [USE_OLD_TESTS_RESULT; RESTART_TESTS];
      ProgressReport MsgProgressGeneration;
      BuildLocalizationExamples (_rule Scenario.worldWithArtifacts)
        (integrationTestTmpFilesPath Scenario.worldWithArtifacts)]).
Proof.
  apply (reuse_generates_from_old_files
           (Scenario.env (Some USE_OLD_TESTS_RESULT) (inr true) (inr []) None)
           Scenario.worldWithArtifacts (lit "events.json") [] USE_OLD_TESTS_RESULT).
  - vm_compute. reflexivity.
  - reflexivity.
  - discriminate.
  - discriminate.
Defined.

(** ** Sequences of calls *)

Lemma updateRule_step (newRule : RuleBaseItem) (w : World) (rule : RuleBaseItem) :
  _rule w = Some rule ->
  exists (updated : bool) (held rule' : RuleBaseItem) (t : list Event),
    updateRule newRule w = (Returned (updated, held), withRule w rule', t) /\
    getName rule' = getName rule /\
    iconPath rule' = iconPath rule /\
    Content.getLocalizationExamples rule' = Content.getLocalizationExamples rule.
Proof.
  intros Hrule. unfold updateRule. rewrite bind_getWorld, Hrule.
  assert (Hsame : withRule w rule = w).
  { unfold withRule. rewrite <- Hrule. now destruct w. }
  destruct (_view w) as [panel|] eqn:Hview.
  - destruct (streq (getName rule) (getName newRule)) eqn:Hname.
    + apply streq_spec in Hname.
      unfold bind, setThisRule, getWorld, updateView, emit, ret.
      cbn [_view _rule integrationTestTmpFilesPath files persisted app].
      rewrite Hview.
      eexists true, _, _, _. split; [unfold withRule; rewrite Hview; reflexivity|].
      repeat split. now rewrite Hname.
    + exists false, newRule, rule, []. rewrite Hsame. repeat split.
  - exists false, newRule, rule, []. rewrite Hsame. repeat split.
Qed.

(** X18. However many rules are handed to [updateRule], and whatever their
    names, the rule the provider shows keeps its name, its icon and its
    localization examples, and the view stays the one it was. *)
Theorem updateAll_keeps_name_icon_examples
  (rules : list RuleBaseItem) (w : World) (rule : RuleBaseItem) :
  _rule w = Some rule ->
  resultOf (updateAll rules w) = Returned tt /\
  _view (worldOf (updateAll rules w)) = _view w /\
  exists rule',
    _rule (worldOf (updateAll rules w)) = Some rule' /\
    getName rule' = getName rule /\
    iconPath rule' = iconPath rule /\
    Content.getLocalizationExamples rule' = Content.getLocalizationExamples rule.
Proof.
  revert w rule; induction rules as [|r rest IH]; intros w rule Hrule.
  - cbn. split; [reflexivity|]. split; [reflexivity|]. now exists rule.
  - cbn [updateAll]. unfold bind.
    destruct (updateRule_step r w rule Hrule)
      as (updated & held & rule1 & t & Hstep & Hname & Hicon & Hexamples).
    rewrite Hstep.
    destruct (IH (withRule w rule1) rule1 eq_refl)
      as (Hret & Hview & rule' & Hrule' & Hname' & Hicon' & Hexamples').
    destruct (updateAll rest (withRule w rule1)) as [[r2 w2] t2].
    cbn [resultOf worldOf fst snd] in *.
    split; [exact Hret|]. split; [exact Hview|].
    exists rule'. repeat split; congruence.
Qed.

Lemma updateAll_keeps_name_icon_examples_witness :
  resultOf (updateAll [setRuDescription (lit "edited") Scenario.rule;
                       mkRule (lit "Rule_2") [] [] [] [] (Some (lit "x.svg")) Default None]
              Scenario.world) = Returned tt /\
  _view (worldOf (updateAll [setRuDescription (lit "edited") Scenario.rule;
                             mkRule (lit "Rule_2") [] [] [] [] (Some (lit "x.svg"))
                               Default None]
                    Scenario.world)) = _view Scenario.world /\
  exists rule',
    _rule (worldOf (updateAll [setRuDescription (lit "edited") Scenario.rule;
                               mkRule (lit "Rule_2") [] [] [] [] (Some (lit "x.svg"))
                                 Default None]
                      Scenario.world)) = Some rule' /\
    getName rule' = getName Scenario.rule /\
    iconPath rule' = iconPath Scenario.rule /\
    Content.getLocalizationExamples rule' = Content.getLocalizationExamples Scenario.rule.
Proof.
  apply (updateAll_keeps_name_icon_examples
           [setRuDescription (lit "edited") Scenario.rule;
            mkRule (lit "Rule_2") [] [] [] [] (Some (lit "x.svg")) Default None]
           Scenario.world Scenario.rule).
  reflexivity.
Defined.




(** X20. A duplicate criterion does not end a build: for a tested rule
    whose tree refresh succeeds, the error dialog of the duplicate is
    followed by the examples stage, run on the rule with its status reset
    and its descriptions overwritten; nothing is persisted before it. *)
Theorem build_goes_on_after_duplicate
  (env : Collaborators) (l : LocalizationsMessage) (w : World) (rule : RuleBaseItem)
  (duplicate : jsstring) :
  _rule w = Some rule ->
  refreshThrows env (Some (setStatus Default None rule)) = None ->
  JsHelper.findDuplicates (List.map trim (Criteria l)) = Some duplicate ->
  obtainExamples env l w
    = (resultOf (getLocalizationExamples env
                   (withRule w (withDescriptions l (setStatus Default None rule)))),
       worldOf (getLocalizationExamples env
                  (withRule w (withDescriptions l (setStatus Default None rule)))),
       [TreeRefresh (Some (setStatus Default None rule));
        DialogShowError (MsgCriterionDuplicated duplicate)]
         ++ traceOf (getLocalizationExamples env
                       (withRule w (withDescriptions l (setStatus Default None rule))))) /\
  persisted (worldOf (obtainExamples env l w)) = persisted w.
Proof.
  intros Hrule Hrefresh Hdup.
  assert (Hrun : obtainExamples env l w
                 = (resultOf (getLocalizationExamples env
                      (withRule w (withDescriptions l (setStatus Default None rule)))),
                    worldOf (getLocalizationExamples env
                      (withRule w (withDescriptions l (setStatus Default None rule)))),
                    [TreeRefresh (Some (setStatus Default None rule));
                     DialogShowError (MsgCriterionDuplicated duplicate)]
                      ++ traceOf (getLocalizationExamples env
                           (withRule w (withDescriptions l (setStatus Default None rule)))))).
  { unfold obtainExamples, bind.
    rewrite resetAndSave_run, Hrule. cbv zeta. rewrite Hrefresh.
    rewrite (saveLocalization_run env l false (withRule w (setStatus Default None rule))
               (setStatus Default None rule) eq_refl).
    cbv zeta. rewrite Hdup.
    cbn [resultOf worldOf traceOf fst snd].
    destruct (getLocalizationExamples env _) as [[r2 w2] t2]. reflexivity. }
  split; [exact Hrun|].
  rewrite Hrun. cbn [worldOf fst snd].
  now rewrite (proj2 (proj2 (proj2 (getLocalizationExamples_keeps_provider env _)))).
Qed.

Lemma build_goes_on_after_duplicate_witness :
  existsb isTestRunnerRun
    (traceOf (obtainExamples Scenario.quiet Scenario.duplicated Scenario.world)) = true /\
  persisted (worldOf (obtainExamples Scenario.quiet Scenario.duplicated Scenario.world))
    = persisted Scenario.world.
Proof.
  destruct (build_goes_on_after_duplicate
              Scenario.quiet Scenario.duplicated Scenario.world Scenario.rule (lit "a")
              eq_refl eq_refl ltac:(vm_compute; reflexivity)) as [Hrun Hpersisted].
  split; [|exact Hpersisted].
  rewrite Hrun. vm_compute. reflexivity.
Defined.

(** ** What a build leaves alone *)

(** X21. For a rule of a kind whose localizations are not tested, a build
    only shows the notice about supported rules: the provider, the rule
    with its status, the files and the persisted rules are untouched and
    no other collaborator is called. *)
Theorem build_of_untested_rule_changes_nothing
  (env : Collaborators) (l : LocalizationsMessage) (w : World) :
  isTestedLocalizationsRule env (_rule w) = false ->
  receiveMessageFromWebView env (buildLocalizationsCommand l) w
    = (Returned (showInfoAnswer env MsgOnlyCorrelationsSupported []), w,
       [DialogShowInfo MsgOnlyCorrelationsSupported []]).
Proof.
  intros Htested.
  now rewrite receive_build_run, buildLocalizationsBody_run, Htested.
Qed.

Lemma build_of_untested_rule_changes_nothing_witness :
  receiveMessageFromWebView Scenario.quiet (buildLocalizationsCommand Scenario.distinct)
    (mkWorld None None Scenario.tmpPath ∅ [])
  = (Returned (showInfoAnswer Scenario.quiet MsgOnlyCorrelationsSupported []),
     mkWorld None None Scenario.tmpPath ∅ [],
     [DialogShowInfo MsgOnlyCorrelationsSupported []]).
Proof.
  apply (build_of_untested_rule_changes_nothing Scenario.quiet Scenario.distinct
           (mkWorld None None Scenario.tmpPath ∅ [])).
  reflexivity.
Defined.


(** X23. In a build the cleanup of the temporary files is called exactly
    when the body threw an exception that is not an
    [OperationCanceledException]: never after a build that returned, and
    never after a cancellation. *)
Theorem cleanup_only_after_failure
  (env : Collaborators) (l : LocalizationsMessage) (w : World) :
  existsb isDeleteAll
    (traceOf (receiveMessageFromWebView env (buildLocalizationsCommand l) w)) = true <->
  exists error,
    resultOf (buildLocalizationsBody env l w) = Thrown error /\
    instanceofOperationCanceledException error = false.
Proof.
  pose proof (buildLocalizationsBody_events env l w) as Hevents.
  apply (forallb_excludes _ _ _ bodyEvent_not_cleanup) in Hevents.
  rewrite receive_build_run.
  destruct (buildLocalizationsBody env l w) as [[[v|error] wb] tb];
    cbn [resultOf traceOf fst snd] in *.
  - rewrite Hevents. split; [discriminate | intros (error & [=] & _)].
  - rewrite buildLocalizationsCatch_run.
    destruct (instanceofOperationCanceledException error) eqn:Hcancel;
      cbv zeta; cbn [traceOf snd]; rewrite existsb_app, Hevents.
    + split; [discriminate | intros (error' & [= <-] & Habs); congruence].
    + split; [intros _; now exists error | reflexivity].
Qed.
